(** * Task-Planner: slot scoring and schedule formatting

    A shallow embedding of [src/schedule_ai.py] (class [SimpleScheduler]) and
    of [app.py] ([create_schedule]), with the properties of the scoring and
    formatting core stated and proved over it.

    Modelling conventions.
    - A Python [str] is a [list ascii]; the case conversions and the
      whitespace class are the ASCII restrictions of Python's.
    - Hours of the day are [Z]; scores, probabilities and the number of
      available hours are exact rationals [Q], for what does not depend on
      rounding: counts, hours, orders and bounds.  What depends on the
      rounding of the scores is stated on a second reading of the classifier
      path, in 64-bit floats.
    - Code that can raise returns [result]; [try]/[except] is a match on it.
      Integers are unbounded; the conversions between integers and text have
      CPython's default limit of 4300 digits.
    - The classifier, the scaler, the feature-name list and the drafting
      service are opaque collaborators and appear as fields of a record. *)

From Stdlib Require Import Floats.
From Stdlib Require Import List String Ascii Bool Arith ZArith QArith Lia.
From Stdlib Require Import DecimalString DecimalN Qround Sorted Permutation.
Import ListNotations.

Local Open Scope string_scope.
Local Open Scope list_scope.
Local Open Scope Z_scope.

(* ------------------------------------------------------------------ *)
(** ** Python strings *)

Module PyStr.

Definition str := list ascii.

Definition of_string (x : string) : str := list_ascii_of_string x.
Coercion of_string : string >-> str.

Definition ascii_in (lo hi : nat) (c : ascii) : bool :=
  (Nat.leb lo (nat_of_ascii c) && Nat.leb (nat_of_ascii c) hi)%bool.

(** [str.isspace] on ASCII: TAB..CR, FS..US and the space. *)
Definition is_space (c : ascii) : bool :=
  (ascii_in 9 13 c || ascii_in 28 32 c)%bool.

Definition is_digit (c : ascii) : bool := ascii_in 48 57 c.

Definition upper_char (c : ascii) : ascii :=
  if ascii_in 97 122 c then ascii_of_nat (nat_of_ascii c - 32) else c.

Definition lower_char (c : ascii) : ascii :=
  if ascii_in 65 90 c then ascii_of_nat (nat_of_ascii c + 32) else c.

Definition upper (x : str) : str := map upper_char x.
Definition lower (x : str) : str := map lower_char x.

(** [x.capitalize()] *)
Definition capitalize (x : str) : str :=
  match x with
  | [] => []
  | c :: r => upper_char c :: lower r
  end.

Definition eqb_char (a b : ascii) : bool := Ascii.eqb a b.

Definition nl : ascii := ascii_of_nat 10.
Definition newline : str := [nl].

Fixpoint eqb (x y : str) : bool :=
  match x, y with
  | [], [] => true
  | a :: x', b :: y' => (eqb_char a b && eqb x' y')%bool
  | _, _ => false
  end.

(** [x.startswith(p)] *)
Fixpoint startswith (p x : str) : bool :=
  match p, x with
  | [], _ => true
  | a :: p', b :: x' => (eqb_char a b && startswith p' x')%bool
  | _ :: _, [] => false
  end.

(** [needle in hay] *)
Fixpoint contains (needle hay : str) : bool :=
  (startswith needle hay ||
   match hay with
   | [] => false
   | _ :: hay' => contains needle hay'
   end)%bool.

(** A left-to-right scan that, after a match of [k] characters, skips them:
    [skip] counts the characters of the current match still to pass. *)
Fixpoint count_from (skip : nat) (needle hay : str) : nat :=
  match hay with
  | [] => 0
  | _ :: hay' =>
      match skip with
      | S k => count_from k needle hay'
      | O => if startswith needle hay
             then S (count_from (List.length needle - 1) needle hay')
             else count_from 0 needle hay'
      end
  end.

(** [hay.count(needle)] for a non-empty needle *)
Definition count (needle hay : str) : nat := count_from 0 needle hay.

Fixpoint remove_from (skip : nat) (needle hay : str) : str :=
  match hay with
  | [] => []
  | c :: hay' =>
      match skip with
      | S k => remove_from k needle hay'
      | O => if startswith needle hay
             then remove_from (List.length needle - 1) needle hay'
             else c :: remove_from 0 needle hay'
      end
  end.

(** [hay.replace(needle, "")] for a non-empty needle *)
Definition remove_all (needle hay : str) : str := remove_from 0 needle hay.

(** [x.replace(" ", "")] *)
Definition remove_spaces (x : str) : str :=
  filter (fun c => negb (eqb_char c " ")) x.

Fixpoint lstrip (x : str) : str :=
  match x with
  | [] => []
  | c :: r => if is_space c then lstrip r else x
  end.

Definition rstrip (x : str) : str := rev (lstrip (rev x)).

(** [x.strip()] *)
Definition strip (x : str) : str := rstrip (lstrip x).

(** The text before the first [sep], and the text after it when there is
    one: [x.split(sep, 1)] for a one-character separator. *)
Fixpoint split1 (sep : ascii) (x : str) : str * option str :=
  match x with
  | [] => ([], None)
  | c :: r =>
      if eqb_char c sep then ([], Some r)
      else let '(a, b) := split1 sep r in (c :: a, b)
  end.

(** [x.split(sep)[0]] *)
Definition before (sep : ascii) (x : str) : str := fst (split1 sep x).

(** [x.split(sep)] for a one-character separator *)
Fixpoint split (sep : ascii) (x : str) : list str :=
  match x with
  | [] => [[]]
  | c :: r =>
      if eqb_char c sep then [] :: split sep r
      else match split sep r with
           | [] => [[c]]
           | h :: t => (c :: h) :: t
           end
  end.

(** [x.split()]: the maximal runs of non-space characters. *)
Fixpoint split_ws_from (cur : str) (x : str) : list str :=
  match x with
  | [] => match cur with [] => [] | _ => [rev cur] end
  | c :: r =>
      if is_space c
      then match cur with
           | [] => split_ws_from [] r
           | _ => rev cur :: split_ws_from [] r
           end
      else split_ws_from (c :: cur) r
  end.

Definition split_ws (x : str) : list str := split_ws_from [] x.

(** [sep.join(xs)] *)
Fixpoint join (sep : str) (xs : list str) : str :=
  match xs with
  | [] => []
  | [x] => x
  | x :: r => x ++ sep ++ join sep r
  end.

Definition mem (x : str) (xs : list str) : bool := existsb (eqb x) xs.

(** [set(xs)], as the list of first occurrences *)
Fixpoint distinct (xs : list str) : list str :=
  match xs with
  | [] => []
  | x :: r => if mem x r then distinct r else x :: distinct r
  end.

End PyStr.

Import PyStr.

(* ------------------------------------------------------------------ *)
(** ** Exceptions *)

Inductive exn : Type :=
| ZeroDivisionError
| ValueError (msg : str)
| IndexError
| AttributeError.

Inductive result (A : Type) : Type :=
| Ok (a : A)
| Raise (e : exn).

Arguments Ok {A} a.
Arguments Raise {A} e.

Definition bind {A B} (m : result A) (k : A -> result B) : result B :=
  match m with
  | Ok a => k a
  | Raise e => Raise e
  end.

Notation "x <- m ;; k" := (bind m (fun x => k))
  (at level 61, m at next level, right associativity).

(** [try: m except Exception: h] *)
Definition try_except {A} (m : result A) (h : exn -> A) : A :=
  match m with
  | Ok a => a
  | Raise e => h e
  end.

(** [str(e)] (the text of an [int] failure is shortened) *)
Definition exn_str (e : exn) : str :=
  match e with
  | ZeroDivisionError => "division by zero"
  | ValueError msg => msg
  | IndexError => "boolean index did not match indexed array"
  | AttributeError => "'NoneType' object has no attribute 'group'"
  end.

(* ------------------------------------------------------------------ *)
(** ** Numbers in text *)

Definition digit_value (c : ascii) : Z := Z.of_nat (nat_of_ascii c - 48).

(** Digits with single underscores between them, as [int] accepts. *)
Fixpoint int_digits (after_digit : bool) (acc : Z) (x : str) : option Z :=
  match x with
  | [] => if after_digit then Some acc else None
  | c :: r =>
      if is_digit c then int_digits true (10 * acc + digit_value c) r
      else if (eqb_char c "_" && after_digit)%bool then int_digits false acc r
      else None
  end.

(** The whitespace [int] skips around an ASCII text: TAB..CR and the space
    (not FS..US, which [str.strip] takes off). *)
Definition is_int_space (c : ascii) : bool :=
  (ascii_in 9 13 c || eqb_char c " ")%bool.

Fixpoint int_lstrip (x : str) : str :=
  match x with
  | [] => []
  | c :: r => if is_int_space c then int_lstrip r else x
  end.

Definition int_strip (x : str) : str :=
  rev (int_lstrip (rev (int_lstrip x))).

(** [sys.get_int_max_str_digits()], at its default. *)
Definition int_max_str_digits : nat := 4300.

Definition count_digits (x : str) : nat := List.length (filter is_digit x).

(** [int(x)] for a [str]: surrounding whitespace, an optional sign, digits;
    a literal of more than 4300 digits is refused. *)
Definition py_int (x : str) : result Z :=
  let y := int_strip x in
  let r := match y with
           | c :: d =>
               if eqb_char c "-" then option_map Z.opp (int_digits false 0 d)
               else if eqb_char c "+" then int_digits false 0 d
               else int_digits false 0 y
           | [] => None
           end in
  match r with
  | Some n =>
      if (count_digits y <=? int_max_str_digits)%nat then Ok n
      else Raise (ValueError
                    "Exceeds the limit (4300 digits) for integer string conversion")
  | None => Raise (ValueError "invalid literal for int() with base 10")
  end.

Fixpoint take_digits (x : str) : str :=
  match x with
  | c :: r => if is_digit c then c :: take_digits r else []
  | [] => []
  end.

(** [re.search(r'\d+', x)]: the first maximal run of digits. *)
Fixpoint re_search_digits (x : str) : option str :=
  match x with
  | [] => None
  | c :: r => if is_digit c then Some (take_digits x) else re_search_digits r
  end.

Definition decimal (n : N) : str :=
  list_ascii_of_string (NilEmpty.string_of_uint (N.to_uint n)).

(** The text of [f"{hour:02d}"] *)
Definition format_02d (hour : Z) : str :=
  let d := if hour <? 0 then "-"%char :: decimal (Z.to_N (- hour))
           else decimal (Z.to_N hour) in
  if (List.length d <? 2)%nat then "0"%char :: d else d.

(** [f"{hour:02d}"]: an integer of more than 4300 digits is refused. *)
Definition py_format_02d (hour : Z) : result str :=
  if (List.length (decimal (Z.to_N (Z.abs hour))) <=? int_max_str_digits)%nat
  then Ok (format_02d hour)
  else Raise (ValueError
                "Exceeds the limit (4300 digits) for integer string conversion").

(* ------------------------------------------------------------------ *)
(** ** The annotation pattern of [process_time_block]

    [re.sub(r'\s*[\[\(][^)\]]*[\]\)]\s*', '', x)].  A match at a position is:
    the whole run of whitespace there, an opening bracket, everything up to
    the first closing bracket, that bracket, and the whole run of whitespace
    after it (each star is greedy, and giving characters back never helps:
    the next character would be one the following item refuses). *)

Definition is_open (c : ascii) : bool := (eqb_char c "[" || eqb_char c "(")%bool.
Definition is_close (c : ascii) : bool := (eqb_char c "]" || eqb_char c ")")%bool.

Fixpoint space_run (x : str) : nat :=
  match x with
  | c :: r => if is_space c then S (space_run r) else O
  | [] => O
  end.

(** Characters before the first closing bracket, when there is one. *)
Fixpoint to_close (x : str) : option nat :=
  match x with
  | [] => None
  | c :: r => if is_close c then Some O else option_map S (to_close r)
  end.

(** Length of the match that starts at the head of [x]. *)
Definition match_annotation (x : str) : option nat :=
  let n1 := space_run x in
  match skipn n1 x with
  | c :: r =>
      if is_open c then
        match to_close r with
        | Some n2 => Some (n1 + 1 + n2 + 1 + space_run (skipn (S n2) r))%nat
        | None => None
        end
      else None
  | [] => None
  end.

Fixpoint re_sub_from (skip : nat) (x : str) : str :=
  match x with
  | [] => []
  | c :: r =>
      match skip with
      | S k => re_sub_from k r
      | O => match match_annotation x with
             | Some n => re_sub_from (n - 1) r
             | None => c :: re_sub_from 0 r
             end
      end
  end.

Definition re_sub_annotations (x : str) : str := re_sub_from 0 x.

(* ------------------------------------------------------------------ *)
(** ** Priorities: [_get_priority] *)

Inductive Priority : Type := HIGH | MEDIUM | LOW.

Definition priority_str (p : Priority) : str :=
  match p with
  | HIGH => "HIGH"
  | MEDIUM => "MEDIUM"
  | LOW => "LOW"
  end.

(** A scored slot: the hour of the day and its score. *)
Definition slot : Type := (Z * Q)%type.

Definition score_priority (prob : Q) : Priority :=
  if Qle_bool (7 # 10) prob then HIGH
  else if Qle_bool (4 # 10) prob then MEDIUM
  else LOW.

Definition static_priority (hour : Z) : Priority :=
  if ((9 <=? hour) && (hour <=? 11))%bool then HIGH
  else if ((14 <=? hour) && (hour <=? 16))%bool then HIGH
  else if ((hour <? 8) || (hour >? 20))%bool then LOW
  else MEDIUM.

(** The [for] loop over the slots, which returns at the first hour that
    matches. *)
Fixpoint scan_slots (hour : Z) (slots : list slot) : option Priority :=
  match slots with
  | [] => None
  | (slot_hour, prob) :: rest =>
      if slot_hour =? hour then Some (score_priority prob)
      else scan_slots hour rest
  end.

Definition _get_priority (hour : Z) (slots : list slot) : Priority :=
  match slots with
  | [] => static_priority hour
  | _ :: _ =>
      match scan_slots hour slots with
      | Some p => p
      | None => static_priority hour
      end
  end.

(* ------------------------------------------------------------------ *)
(** ** Time normalisation: [_format_time] *)

Definition normalise_time (time_str : str) : str :=
  upper (remove_spaces time_str).

Definition has_marker (time_str : str) : bool :=
  (contains "AM" time_str || contains "PM" time_str)%bool.

(** The body of the [try]: [.group()] on a failed search raises. *)
Definition parse_marked_time (time_str : str) : result str :=
  d <- match re_search_digits (before ":" time_str) with
       | Some d => Ok d
       | None => Raise AttributeError
       end ;;
  hour <- py_int d ;;
  let hour :=
    if (contains "PM" time_str && negb (hour =? 12))%bool then hour + 12
    else if (contains "AM" time_str && (hour =? 12))%bool then 0
    else hour in
  text <- py_format_02d hour ;;
  Ok (text ++ of_string ":00").

Definition _format_time (time_str : str) : str :=
  let time_str := normalise_time time_str in
  if has_marker time_str
  then try_except (parse_marked_time time_str) (fun _ => time_str)
  else time_str.

(* ------------------------------------------------------------------ *)
(** ** Formatting: [_format_output] *)

Section Formatter.

(** The slots the scorer produced for this request. *)
Variable time_slots : list slot.

(** The body of the [try] of [process_time_block]. *)
Definition process_time_block_body (line : str) : result str :=
  match split1 ":" line with
  | (_, None) => Ok line
  | (part0, Some part1) =>
      let time_str := _format_time part0 in
      let task := strip (re_sub_annotations part1) in
      let hour := try_except (py_int (before ":" time_str)) (fun _ => 9) in
      let priority := _get_priority hour time_slots in
      Ok (time_str ++ of_string " - " ++ task ++ of_string " (" ++
          capitalize (priority_str priority) ++ of_string ")")
  end.

Definition process_time_block (line : str) : str :=
  try_except (process_time_block_body line) (fun _ => line).

Definition days : list str :=
  map of_string
    ["MONDAY"; "TUESDAY"; "WEDNESDAY"; "THURSDAY"; "FRIDAY"; "SATURDAY";
     "SUNDAY"].

Definition markup : list str := map of_string ["*"; "["; "]"].

(** The branch of the loop body a stripped line takes. *)
Inductive line_class : Type :=
| Skipped        (* [continue] *)
| QuarterHeader
| WeekHeader
| DayHeader
| TimeBlock
| Narrative
| MarkupLine.    (* no branch taken *)

Definition skip_rule (line : str) : bool :=
  (contains "[Continue" line || contains "rest" (lower line))%bool.

Definition classify (line : str) : line_class :=
  if (match line with [] => true | _ => false end || skip_rule line)%bool
  then Skipped
  else if contains "QUARTER" (upper line) then QuarterHeader
  else if (contains "WEEK" (upper line) && contains "-" line)%bool
  then WeekHeader
  else if existsb (fun day => contains day (upper line)) days then DayHeader
  else if contains ":" line then TimeBlock
  else if negb (existsb (fun c => contains c line) markup) then Narrative
  else MarkupLine.

Inductive section : Type := QUARTER | WEEK | DAY.

(** The loop state: [formatted_lines] and [current_section]. *)
Definition fmt_state : Type := (list str * option section)%type.

(** One iteration, on a raw line of the draft. *)
Definition format_line (st : fmt_state) (raw : str) : fmt_state :=
  let '(formatted_lines, current_section) := st in
  let line := strip raw in
  match classify line with
  | Skipped => st
  | QuarterHeader => (formatted_lines ++ [of_string ""; line], Some QUARTER)
  | WeekHeader =>
      (formatted_lines ++ [of_string ""; strip (remove_all "**" line)],
       Some WEEK)
  | DayHeader =>
      (formatted_lines ++
         [of_string ""; capitalize (strip (before ":" line))],
       Some DAY)
  | TimeBlock =>
      (* [process_time_block] catches what its body raises, so the [except]
         around this call has nothing to catch *)
      let formatted_line := process_time_block line in
      if eqb formatted_line line then st
      else (formatted_lines ++ [formatted_line], current_section)
  | Narrative => (formatted_lines ++ [line], current_section)
  | MarkupLine => st
  end.

(** The lines the loop leaves in [formatted_lines]. *)
Definition format_lines (schedule : str) : list str :=
  fst (fold_left format_line (split nl (strip schedule)) ([], None)).

(** The text of the hours in the header is a float's [repr], which the
    caller of this model supplies. *)
Variable hours_repr : str.

Definition header (duration goals considerations : str) : str :=
  join newline
    [of_string "Schedule Overview";
     of_string "----------------";
     of_string "Duration: " ++ duration;
     of_string "Goals: " ++ goals;
     of_string "Hours per day: " ++ hours_repr;
     of_string "Notes: " ++ considerations;
     of_string "----------------" ++ newline].

Definition _format_output (schedule duration goals considerations : str)
  : str :=
  header duration goals considerations ++ join newline (format_lines schedule).

End Formatter.

(* ------------------------------------------------------------------ *)
(** ** The scheduler object and its collaborators *)

(** A two-dimensional numeric array, as the list of its rows (all of one
    width). *)
Definition matrix : Type := list (list Q).

Record SimpleScheduler : Type := {
  (** [rf_model.predict_proba], when a classifier was loaded *)
  rf_model : option (matrix -> result matrix);
  (** [scaler.transform], when a scaler was loaded *)
  scaler : option (matrix -> result matrix);
  feature_names : option (list str);
  (** [model.generate_content(prompt).text] *)
  generate_content : str -> result str;
  (** The three prompt builders, whose bodies are not part of the model. *)
  _create_weekly_prompt : str -> list slot -> str -> result str;
  _create_monthly_prompt : str -> list slot -> str -> result str;
  _create_yearly_prompt : str -> list slot -> str -> result str
}.

(* ------------------------------------------------------------------ *)
(** ** Feature extraction: [extract_features] *)

Definition Qmax (a b : Q) : Q := if Qle_bool a b then b else a.
Definition Qmin (a b : Q) : Q := if Qle_bool a b then a else b.

Definition Qnat (n : nat) : Q := inject_Z (Z.of_nat n).

(** [float(b)] for a [bool] *)
Definition Qbool (b : bool) : Q := if b then 1%Q else 0%Q.

(** [a / b] *)
Definition py_div (a b : Q) : result Q :=
  if Qeq_bool b 0 then Raise ZeroDivisionError else Ok (a / b)%Q.

Definition keyword_categories : list (str * list str) :=
  map (fun '(name, kws) => (of_string name, map of_string kws))
    [("is_creative", ["design"; "create"; "develop"; "build"; "implement"]);
     ("is_analytical", ["analyze"; "research"; "study"; "investigate"; "solve"]);
     ("is_planning", ["plan"; "organize"; "schedule"; "coordinate"; "arrange"]);
     ("prefers_morning", ["morning"; "early"; "am"]);
     ("prefers_afternoon", ["afternoon"; "lunch"; "pm"]);
     ("prefers_evening", ["evening"; "night"; "late"]);
     ("style_visual", ["visual"; "see"; "watch"; "look"]);
     ("style_auditory", ["listen"; "hear"; "discuss"; "talk"]);
     ("style_kinesthetic", ["practice"; "hands-on"; "do"; "experience"])].

Definition deadline_words : list str :=
  map of_string ["deadline"; "due"; "urgent"; "asap"; "priority"].

(** [sum(word in text for word in words)] *)
Definition hits (words : list str) (text : str) : nat :=
  List.length (filter (fun w => contains w text) words).

(** The [features] dictionary, in insertion order. *)
Definition features_dict (goals : str) (available_hours : Q)
    (considerations : str) : result (list (str * Q)) :=
  let start_hour := Qmax 6 (24 - available_hours) in
  let features :=
    [(of_string "available_hours", available_hours);
     (of_string "start_hour", start_hour);
     (of_string "end_hour", Qmin 22 (start_hour + available_hours));
     (of_string "duration_blocks", (available_hours / 2)%Q)] in
  let words := split_ws (lower goals) in
  let unique_words := distinct words in
  task_complexity <- py_div (Qnat (List.length words)) 10 ;;
  task_diversity <-
    py_div (Qnat (List.length unique_words)) (Qnat (List.length words)) ;;
  let considerations_lower := lower considerations in
  urgency_score <-
    py_div (Qnat (hits deadline_words considerations_lower))
           (Qnat (List.length deadline_words)) ;;
  Ok (features ++
      [(of_string "task_complexity", task_complexity);
       (of_string "task_diversity", task_diversity)] ++
      map (fun '(feature_name, keywords) =>
             (feature_name,
              Qbool (existsb (fun kw => (mem kw unique_words ||
                                         contains kw considerations_lower)%bool)
                             keywords)))
          keyword_categories ++
      [(of_string "urgency_score", urgency_score);
       (of_string "has_meetings",
        Qbool (contains "meeting" considerations_lower));
       (of_string "has_breaks", Qbool (contains "break" considerations_lower));
       (of_string "meeting_frequency",
        Qnat (count "meeting" considerations_lower))]).

Fixpoint lookup (name : str) (d : list (str * Q)) : option Q :=
  match d with
  | [] => None
  | (k, v) :: r => if eqb k name then Some v else lookup name r
  end.

(** [DataFrame([features]).reindex(columns=names, fill_value=0)] *)
Definition reindex (names : list str) (d : list (str * Q)) : list (str * Q) :=
  map (fun n => (n, match lookup n d with Some v => v | None => 0%Q end)) names.

Definition extract_features (self : SimpleScheduler) (goals : str)
    (available_hours : Q) (considerations : str) : result matrix :=
  features <- features_dict goals available_hours considerations ;;
  let features_df :=
    match feature_names self with
    | Some names => reindex names features
    | None => features
    end in
  let values : matrix := [map snd features_df] in
  match scaler self with
  | Some transform => Ok (try_except (transform values) (fun _ => values))
  | None => Ok values
  end.

(* ------------------------------------------------------------------ *)
(** ** The classifier path: [predict_optimal_slots] *)

(** [np.arange(n)] *)
Definition arange (n : Z) : list Z := map Z.of_nat (seq 0 (Z.to_nat n)).

(** [xs[mask]] for a boolean array [mask] *)
Fixpoint pick {A} (mask : list bool) (xs : list A) : list A :=
  match mask, xs with
  | b :: mask', x :: xs' => if b then x :: pick mask' xs' else pick mask' xs'
  | _, _ => []
  end.

Definition bool_index {A} (mask : list bool) (xs : list A) : result (list A) :=
  if (List.length mask =? List.length xs)%nat then Ok (pick mask xs)
  else Raise IndexError.

(** [np.clip(p, 0, 1)] *)
Definition clip01 (p : Q) : Q := Qmin (Qmax p 0) 1.

Definition in_band (lo hi h : Z) : bool := ((lo <=? h) && (h <=? hi))%bool.
Definition at_edge (h : Z) : bool := ((h <? 7) || (h >? 20))%bool.

Definition adjustment (h : Z) : Q :=
  ((if in_band 9 11 h then 12 # 10 else 1) *
   (if in_band 14 16 h then 11 # 10 else 1) *
   (if at_edge h then 8 # 10 else 1))%Q.

(** Insertion of a slot in front of the first one whose score is not
    greater: with [fold_right] this is the stable descending sort
    [sorted(slots, key=lambda x: x[1], reverse=True)]. *)
Fixpoint insert_desc (x : slot) (l : list slot) : list slot :=
  match l with
  | [] => [x]
  | y :: r => if Qlt_le_dec (snd x) (snd y) then y :: insert_desc x r
              else x :: l
  end.

Definition sorted_desc (l : list slot) : list slot :=
  fold_right insert_desc [] l.

Definition predict_body (predict_proba : matrix -> result matrix)
    (features : matrix) : result (option (list slot)) :=
  predictions <- predict_proba features ;;
  match predictions with
  | [] => Ok None
  | row0 :: _ =>
      let hours := arange 24 in
      let hour_mask := map (in_band 5 22) hours in
      let probs :=
        if (1 <? List.length row0)%nat
        then map (fun row => nth 1 row 0%Q) predictions
        else List.concat predictions in
      probs <- bool_index hour_mask probs ;;
      let valid_hours := pick hour_mask hours in
      let probs := map (fun '(h, p) => clip01 (p * adjustment h)%Q)
                       (combine valid_hours probs) in
      Ok (Some (sorted_desc (combine valid_hours probs)))
  end.

Definition predict_optimal_slots (self : SimpleScheduler) (features : matrix)
  : option (list slot) :=
  match rf_model self with
  | None => None
  | Some predict_proba =>
      try_except (predict_body predict_proba features) (fun _ => None)
  end.

(* ------------------------------------------------------------------ *)
(** ** Slot generation: [generate_dynamic_schedule] *)

(** [int(x)] for a float: truncation towards zero. *)
Definition int_of_float (x : Q) : Z := Z.quot (Qnum x) (Z.pos (Qden x)).

Definition hours_needed (available_hours : Q) : Z :=
  Z.min (int_of_float available_hours) 12.

Definition time_preferences : list (list str * Z) :=
  [(map of_string ["morning"; "early"; "am"], 8);
   (map of_string ["afternoon"; "lunch"; "pm"], 12);
   (map of_string ["evening"; "night"; "late"], 16)].

(** The loop over [time_preferences]; the state is
    [(start_hour, max_preference_score)]. *)
Definition preferred_start (considerations_lower : str) : Z :=
  fst (fold_left
         (fun '(start_hour, max_preference_score) '(keywords, hour) =>
            let score := hits keywords considerations_lower in
            if (max_preference_score <? score)%nat then (hour, score)
            else (start_hour, max_preference_score))
         time_preferences (9, O)).

(** An entry of [time_adjustments]: a closed band of hours, or the edge
    entry whose bounds are pairs. *)
Inductive time_adjustment : Type :=
| Band (start end_ : Z) (factor : Q)
| Edge (start end_ : Z * Z) (factor : Q).

Definition time_adjustments : list time_adjustment :=
  [Band 9 11 (9 # 10); Band 14 16 (8 # 10); Edge (0, 7) (20, 24) (6 # 10)].

Definition adjustment_mask (a : time_adjustment) (slot_hour : Z) : bool :=
  match a with
  | Edge start end_ _ => ((slot_hour <? snd start) || (slot_hour >? fst end_))%bool
  | Band start end_ _ => ((slot_hour >=? start) && (slot_hour <=? end_))%bool
  end.

Definition adjustment_factor (a : time_adjustment) : Q :=
  match a with
  | Edge _ _ f => f
  | Band _ _ f => f
  end.

(** [np.where(mask, factor, probs)] *)
Definition apply_adjustment (slot_hours : list Z) (probs : list Q)
    (a : time_adjustment) : list Q :=
  map (fun '(h, p) => if adjustment_mask a h then adjustment_factor a else p)
      (combine slot_hours probs).

(** [np.full(n, v)] *)
Definition np_full (n : Z) (v : Q) : result (list Q) :=
  if n <? 0 then Raise (ValueError "negative dimensions are not allowed")
  else Ok (repeat v (Z.to_nat n)).

Definition fallback_slots (hours_needed : Z) (considerations : str)
  : result (list slot) :=
  let considerations_lower := lower considerations in
  let start_hour := preferred_start considerations_lower in
  let hours := arange hours_needed in
  let slot_hours := map (fun h => (start_hour + h) mod 24) hours in
  base_probs <- np_full hours_needed (7 # 10) ;;
  let probs := fold_left (apply_adjustment slot_hours) time_adjustments
                         base_probs in
  Ok (combine slot_hours probs).

(** [xs[:n]] *)
Definition slice_to {A} (n : Z) (xs : list A) : list A :=
  if n <? 0 then firstn (List.length xs - Z.to_nat (- n)) xs
  else firstn (Z.to_nat n) xs.

(** [sum(prob for _, prob in slots)], the scores read as exact rationals:
    this reading serves the hours, the order and the number of the slots;
    what the division gives in binary64 is [normalised_slots64] below. *)
Definition sum_probs (slots : list slot) : Q :=
  fold_left (fun acc '(_, prob) => (acc + prob)%Q) slots 0%Q.

Definition normalised_slots (hours_needed : Z) (optimal_slots : list slot)
  : list slot :=
  let top := slice_to hours_needed optimal_slots in
  let total_prob := sum_probs top in
  if Qlt_le_dec 0 total_prob
  then map (fun '(hour, prob) => (hour, (prob / total_prob)%Q)) top
  else top.

Definition generate_dynamic_schedule (self : SimpleScheduler)
    (duration goals : str) (available_hours : Q) (considerations : str)
  : result (list slot) :=
  features <- extract_features self goals available_hours considerations ;;
  let optimal_slots := predict_optimal_slots self features in
  let hours_needed := hours_needed available_hours in
  match optimal_slots with
  | None => fallback_slots hours_needed considerations
  | Some optimal_slots => Ok (normalised_slots hours_needed optimal_slots)
  end.

(* ------------------------------------------------------------------ *)
(** ** The classifier path in 64-bit floats

    Lines 98-124 and 175-179 once more, with the scores as the binary64
    numbers numpy computes with, from the classifier's predictions on. *)

#[local] Set Warnings "-inexact-float".














(* ------------------------------------------------------------------ *)
(** ** The entry points: [generate_schedule] and [create_schedule] *)

Section Pipeline.

(** [repr] of a float, for the header line of the hours. *)
Variable float_repr : Q -> str.

Definition prompt_method (self : SimpleScheduler) (duration_lower : str)
  : str -> list slot -> str -> result str :=
  if contains "year" duration_lower then _create_yearly_prompt self
  else if contains "month" duration_lower then _create_monthly_prompt self
  else _create_weekly_prompt self.

Definition generate_schedule (self : SimpleScheduler) (duration goals : str)
    (available_hours : Q) (considerations : str) : result str :=
  time_slots <-
    generate_dynamic_schedule self duration goals available_hours
                              considerations ;;
  let duration_lower := lower duration in
  let attempt :=
    prompt <- prompt_method self duration_lower goals time_slots
                            considerations ;;
    text <- generate_content self prompt ;;
    Ok (_format_output time_slots (float_repr available_hours) text duration
                       goals considerations) in
  match attempt with
  | Ok schedule => Ok schedule
  | Raise e =>
      Raise (ValueError (of_string "Failed to generate schedule: " ++ exn_str e))
  end.

(** [app.create_schedule], with the scheduler it builds given. *)
Definition create_schedule (self : SimpleScheduler) (duration goals : str)
    (available_hours : Q) (considerations : str) : str :=
  match duration, goals, considerations with
  | _ :: _, _ :: _, _ :: _ =>
      try_except
        (generate_schedule self duration goals available_hours considerations)
        (fun e => of_string "Error: " ++ exn_str e)
  | _, _, _ => of_string "Error: Please fill in all fields"
  end.

End Pipeline.

(** The two ways [generate_dynamic_schedule] can go once the features are
    there. *)
Definition fallback_path (self : SimpleScheduler) (goals : str)
    (available_hours : Q) (considerations : str) : Prop :=
  exists features,
    extract_features self goals available_hours considerations = Ok features /\
    predict_optimal_slots self features = None.

Definition classifier_path (self : SimpleScheduler) (goals : str)
    (available_hours : Q) (considerations : str) (optimal_slots : list slot)
  : Prop :=
  exists features,
    extract_features self goals available_hours considerations = Ok features /\
    predict_optimal_slots self features = Some optimal_slots.

(** A scheduler for which no classifier artifacts were loaded, with a
    drafting service that answers every prompt with one line. *)
Definition rule_based_scheduler : SimpleScheduler :=
  {| rf_model := None;
     scaler := None;
     feature_names := None;
     generate_content := fun _ => Ok (of_string "9am: work");
     _create_weekly_prompt := fun goals _ _ => Ok goals;
     _create_monthly_prompt := fun goals _ _ => Ok goals;
     _create_yearly_prompt := fun goals _ _ => Ok goals |}.

(** A scheduler whose classifier answers every feature matrix with 24 rows
    of two even class probabilities. *)
Definition even_classifier_scheduler : SimpleScheduler :=
  {| rf_model := Some (fun _ => Ok (repeat [(1 # 2)%Q; (1 # 2)%Q] 24));
     scaler := None;
     feature_names := None;
     generate_content := fun _ => Ok (of_string "9am: work");
     _create_weekly_prompt := fun goals _ _ => Ok goals;
     _create_monthly_prompt := fun goals _ _ => Ok goals;
     _create_yearly_prompt := fun goals _ _ => Ok goals |}.

(** The words of a text, for the reading of the skip rule by whole words:
    the maximal runs of letters, in lower case. *)
Definition is_alpha (c : ascii) : bool :=
  (ascii_in 65 90 c || ascii_in 97 122 c)%bool.

Fixpoint words_from (cur : str) (x : str) : list str :=
  match x with
  | [] => match cur with [] => [] | _ => [rev cur] end
  | c :: r =>
      if is_alpha c then words_from (c :: cur) r
      else match cur with
           | [] => words_from [] r
           | _ => rev cur :: words_from [] r
           end
  end.

Definition words_of (x : str) : list str := words_from [] (lower x).

Definition has_word (w x : str) : bool := mem w (words_of x).

(** The characters [f"{hour:02d}"] can produce. *)
Definition plain_char (c : ascii) : bool := (is_digit c || eqb_char c "-")%bool.

(** A run of digits as a decimal numeral. *)
Fixpoint uint_of_digits (d : str) : Decimal.uint :=
  match d with
  | [] => Decimal.Nil
  | c :: r =>
      let u := uint_of_digits r in
      match c with
      | "1"%char => Decimal.D1 u
      | "2"%char => Decimal.D2 u
      | "3"%char => Decimal.D3 u
      | "4"%char => Decimal.D4 u
      | "5"%char => Decimal.D5 u
      | "6"%char => Decimal.D6 u
      | "7"%char => Decimal.D7 u
      | "8"%char => Decimal.D8 u
      | "9"%char => Decimal.D9 u
      | _ => Decimal.D0 u
      end
  end.

(** The number a run of digits denotes. *)
Definition digits_value (d : str) : Z :=
  fold_left (fun acc c => 10 * acc + digit_value c) d 0.

(** The score the fallback overrides leave for an hour: the base 0.7 run
    through [time_adjustments] in order. *)
Definition rule_score (h : Z) : Q :=
  fold_left (fun p a => if adjustment_mask a h then adjustment_factor a else p)
            time_adjustments (7 # 10)%Q.

(** [_format_slot_time]: [f"{hour:02d}:00"] *)
Definition _format_slot_time (hour : Z) : result str :=
  text <- py_format_02d hour ;;
  Ok (text ++ of_string ":00").

(** An integer whose decimal text stays within the limit of 4300 digits. *)
Definition fits_str_digits (n : Z) : Prop :=
  (List.length (decimal (Z.to_N (Z.abs n))) <= int_max_str_digits)%nat.

(** The order the sorted slots of the classifier come in: the higher score
    first, and the earlier hour first among equal scores. *)
Definition slot_before (x y : slot) : Prop :=
  (snd y < snd x)%Q \/ ((snd x == snd y)%Q /\ fst x < fst y).

(** The hours the classifier path scores. *)
Definition scored_hours : list Z :=
  [5; 6; 7; 8; 9; 10; 11; 12; 13; 14; 15; 16; 17; 18; 19; 20; 21; 22].

(** A scheduler whose classifier answers with one row of class
    probabilities, as for a single sample. *)
Definition row_classifier_scheduler : SimpleScheduler :=
  {| rf_model := Some (fun _ => Ok [[(3 # 10)%Q; (7 # 10)%Q]]);
     scaler := None;
     feature_names := None;
     generate_content := fun _ => Ok (of_string "9am: work");
     _create_weekly_prompt := fun goals _ _ => Ok goals;
     _create_monthly_prompt := fun goals _ _ => Ok goals;
     _create_yearly_prompt := fun goals _ _ => Ok goals |}.

(** The names of the extracted features, in the order of insertion. *)
Definition feature_order : list str :=
  map of_string
    ["available_hours"; "start_hour"; "end_hour"; "duration_blocks";
     "task_complexity"; "task_diversity";
     "is_creative"; "is_analytical"; "is_planning";
     "prefers_morning"; "prefers_afternoon"; "prefers_evening";
     "style_visual"; "style_auditory"; "style_kinesthetic";
     "urgency_score"; "has_meetings"; "has_breaks"; "meeting_frequency"].

(** The features that are [float] of a truth value. *)
Definition flag_names : list str :=
  map fst keyword_categories ++ map of_string ["has_meetings"; "has_breaks"].

(** A scheduler with a feature-name list and a scaler that always fails. *)
Definition failing_scaler_scheduler : SimpleScheduler :=
  {| rf_model := None;
     scaler := Some (fun _ => Raise (ValueError "feature count mismatch"));
     feature_names :=
       Some (map of_string ["available_hours"; "weekday"; "has_meetings"]);
     generate_content := fun _ => Ok (of_string "9am: work");
     _create_weekly_prompt := fun goals _ _ => Ok goals;
     _create_monthly_prompt := fun goals _ _ => Ok goals;
     _create_yearly_prompt := fun goals _ _ => Ok goals |}.

(** The lines one raw line adds to the formatted lines. *)
Definition emitted (time_slots : list slot) (raw : str) : list str :=
  fst (format_line time_slots ([], None) raw).

(** A scheduler whose drafting service is down. *)
Definition offline_scheduler : SimpleScheduler :=
  {| rf_model := None;
     scaler := None;
     feature_names := None;
     generate_content := fun _ => Raise (ValueError "service unavailable");
     _create_weekly_prompt := fun goals _ _ => Ok goals;
     _create_monthly_prompt := fun goals _ _ => Ok goals;
     _create_yearly_prompt := fun goals _ _ => Ok goals |}.

(* ================================================================== *)
(** * Properties *)

(** ** Strings *)

Lemma eqb_char_iff (a b : ascii) : eqb_char a b = true <-> a = b.
Proof. unfold eqb_char. apply Ascii.eqb_eq. Qed.

Lemma eqb_char_refl (a : ascii) : eqb_char a a = true.
Proof. now apply eqb_char_iff. Qed.

Lemma eqb_iff (x y : str) : eqb x y = true <-> x = y.
Proof.
  revert y. induction x as [|a x IH]; intros [|b y]; simpl;
    try (split; [discriminate | discriminate]); try tauto.
  rewrite andb_true_iff, eqb_char_iff, IH.
  split; [intros [-> ->]; reflexivity | intros H; now inversion H].
Qed.

Lemma eqb_false_iff (x y : str) : eqb x y = false <-> x <> y.
Proof.
  rewrite <- eqb_iff. destruct (eqb x y); split; congruence.
Qed.

Lemma startswith_iff (p x : str) :
  startswith p x = true <-> exists post, x = p ++ post.
Proof.
  revert x. induction p as [|a p IH]; intros x; simpl.
  - split; [intros _; now exists x | reflexivity].
  - destruct x as [|b x].
    + split; [discriminate | intros [post H]; discriminate].
    + rewrite andb_true_iff, eqb_char_iff, IH. split.
      * intros [-> [post ->]]. now exists post.
      * intros [post H]. inversion H; subst. split; [reflexivity | now exists post].
Qed.

(** The [in] operator on strings finds exactly the substrings. *)
Lemma contains_iff (needle hay : str) :
  contains needle hay = true <-> exists pre post, hay = pre ++ needle ++ post.
Proof.
  induction hay as [|c hay IH]; simpl; rewrite orb_true_iff, startswith_iff.
  - split.
    + intros [[post H] | H]; [| discriminate]. exists [], post. exact H.
    + intros [pre [post H]]. left. destruct pre; simpl in H.
      * now exists post.
      * discriminate.
  - rewrite IH. split.
    + intros [[post H] | [pre [post H]]].
      * exists [], post. exact H.
      * exists (c :: pre), post. simpl. now rewrite H.
    + intros [[|a pre] [post H]]; simpl in H.
      * left. now exists post.
      * right. inversion H; subst. now exists pre, post.
Qed.

Lemma contains_In (a : ascii) (n hay : str) :
  contains (a :: n) hay = true -> In a hay.
Proof.
  rewrite contains_iff. intros [pre [post ->]].
  apply in_or_app. right. now left.
Qed.

Lemma contains_char_iff (a : ascii) (hay : str) :
  contains [a] hay = true <-> In a hay.
Proof.
  split; [apply contains_In |].
  intros H. apply in_split in H as [pre [post ->]].
  apply contains_iff. now exists pre, post.
Qed.

Lemma split1_spec (sep : ascii) (x : str) :
  match split1 sep x with
  | (a, Some b) => x = a ++ sep :: b /\ ~ In sep a
  | (a, None) => x = a /\ ~ In sep x
  end.
Proof.
  induction x as [|c x IH]; simpl.
  - split; [reflexivity | intros []].
  - destruct (eqb_char c sep) eqn:E.
    + apply eqb_char_iff in E. subst. split; [reflexivity | intros []].
    + assert (c <> sep) by (intros ->; now rewrite eqb_char_refl in E).
      destruct (split1 sep x) as [a [b|]]; destruct IH as [IH1 IH2].
      * split; [simpl; now rewrite <- IH1 | intros [|]; tauto].
      * subst a. split; [reflexivity | intros [|]; tauto].
Qed.

Lemma before_app (sep : ascii) (a rest : str) :
  ~ In sep a -> before sep (a ++ rest) = a ++ before sep rest.
Proof.
  unfold before. induction a as [|c a IH]; simpl; intros H; [reflexivity|].
  destruct (eqb_char c sep) eqn:E.
  - apply eqb_char_iff in E. tauto.
  - specialize (IH (fun K => H (or_intror K))).
    destruct (split1 sep (a ++ rest)); simpl in *. now rewrite IH.
Qed.

(* ------------------------------------------------------------------ *)
(** ** Priority lookup *)

Lemma scan_slots_first (hour : Z) (pre post : list slot) (prob : Q) :
  (forall s, In s pre -> fst s <> hour) ->
  scan_slots hour (pre ++ (hour, prob) :: post) = Some (score_priority prob).
Proof.
  induction pre as [|[h p] pre IH]; simpl; intros H.
  - now rewrite Z.eqb_refl.
  - destruct (Z.eqb_spec h hour) as [E|_].
    + exfalso. apply (H (h, p)); [now left | exact E].
    + apply IH. intros s Hs. apply H. now right.
Qed.

Lemma scan_slots_none (hour : Z) (slots : list slot) :
  (forall s, In s slots -> fst s <> hour) -> scan_slots hour slots = None.
Proof.
  induction slots as [|[h p] slots IH]; simpl; intros H; [reflexivity|].
  destruct (Z.eqb_spec h hour) as [E|_].
  - exfalso. apply (H (h, p)); [now left | exact E].
  - apply IH. intros s Hs. apply H. now right.
Qed.

Lemma get_priority_scan (hour : Z) (slots : list slot) :
  _get_priority hour slots =
  match scan_slots hour slots with
  | Some p => p
  | None => static_priority hour
  end.
Proof. destruct slots; reflexivity. Qed.

Lemma score_priority_thresholds (prob : Q) :
  (score_priority prob = HIGH <-> (7 # 10 <= prob)%Q) /\
  (score_priority prob = MEDIUM <-> (4 # 10 <= prob /\ prob < 7 # 10)%Q) /\
  (score_priority prob = LOW <-> (prob < 4 # 10)%Q).
Proof.
  unfold score_priority.
  destruct (Qle_bool (7 # 10) prob) eqn:E7;
    destruct (Qle_bool (4 # 10) prob) eqn:E4;
    try (apply Qle_bool_iff in E7); try (apply Qle_bool_iff in E4);
    try (assert (~ (7 # 10 <= prob)%Q)
           by (rewrite <- Qle_bool_iff; congruence));
    try (assert (~ (4 # 10 <= prob)%Q)
           by (rewrite <- Qle_bool_iff; congruence));
    repeat split; try discriminate; try tauto; intros;
    try (apply Qnot_le_lt; assumption);
    try (exfalso; unfold Qle, Qlt in *; simpl in *; lia).
Qed.

(** C9: when some entry of the slot sequence has the queried hour, the
    priority comes from the first such entry, through the thresholds
    HIGH from 0.7, MEDIUM from 0.4 and below 0.7, LOW below 0.4; the static
    rule of the hour decides only when no entry has that hour. *)
Theorem get_priority_first_match (hour : Z) (slots : list slot) :
  (forall (pre : list slot) (prob : Q) (post : list slot),
      slots = pre ++ (hour, prob) :: post ->
      (forall s, In s pre -> fst s <> hour) ->
      _get_priority hour slots = score_priority prob /\
      (score_priority prob = HIGH <-> (7 # 10 <= prob)%Q) /\
      (score_priority prob = MEDIUM <-> (4 # 10 <= prob /\ prob < 7 # 10)%Q) /\
      (score_priority prob = LOW <-> (prob < 4 # 10)%Q)) /\
  ((forall s, In s slots -> fst s <> hour) ->
   _get_priority hour slots = static_priority hour).
Proof.
  split.
  - intros pre prob post -> Hpre. split; [| apply score_priority_thresholds].
    now rewrite get_priority_scan, (scan_slots_first hour pre post prob Hpre).
  - intros H. now rewrite get_priority_scan, (scan_slots_none hour slots H).
Qed.

Lemma get_priority_first_match_witness :
  _get_priority 10 [(9, (9 # 10)%Q); (10, (5 # 10)%Q); (10, (9 # 10)%Q)]
    = MEDIUM /\
  _get_priority 13 [(9, (9 # 10)%Q); (10, (5 # 10)%Q)] = MEDIUM.
Proof.
  split.
  - destruct (get_priority_first_match 10
                [(9, (9 # 10)%Q); (10, (5 # 10)%Q); (10, (9 # 10)%Q)])
      as [H _].
    destruct (H [(9, (9 # 10)%Q)] (5 # 10)%Q [(10, (9 # 10)%Q)] eq_refl)
      as [E _].
    + intros s [<- | []]. simpl. lia.
    + rewrite E. reflexivity.
  - destruct (get_priority_first_match 13 [(9, (9 # 10)%Q); (10, (5 # 10)%Q)])
      as [_ H].
    rewrite H; [reflexivity |].
    intros s [<- | [<- | []]]; simpl; lia.
Defined.

(* ------------------------------------------------------------------ *)
(** ** The two paths of [generate_dynamic_schedule] *)

Lemma generate_fallback self d g ah c :
  fallback_path self g ah c ->
  generate_dynamic_schedule self d g ah c = fallback_slots (hours_needed ah) c.
Proof.
  intros [features [E1 E2]]. unfold generate_dynamic_schedule.
  rewrite E1. simpl. now rewrite E2.
Qed.

Lemma generate_classifier self d g ah c os :
  classifier_path self g ah c os ->
  generate_dynamic_schedule self d g ah c =
  Ok (normalised_slots (hours_needed ah) os).
Proof.
  intros [features [E1 E2]]. unfold generate_dynamic_schedule.
  rewrite E1. simpl. now rewrite E2.
Qed.

Lemma generate_cases self d g ah c slots :
  generate_dynamic_schedule self d g ah c = Ok slots ->
  (fallback_path self g ah c /\
   fallback_slots (hours_needed ah) c = Ok slots) \/
  (exists os, classifier_path self g ah c os /\
              slots = normalised_slots (hours_needed ah) os).
Proof.
  unfold generate_dynamic_schedule.
  destruct (extract_features self g ah c) as [features|e] eqn:E1; simpl;
    [| discriminate].
  destruct (predict_optimal_slots self features) as [os|] eqn:E2; intros H.
  - right. exists os. split; [now exists features | congruence].
  - left. split; [now exists features | exact H].
Qed.

(* ------------------------------------------------------------------ *)
(** ** The rule-based fallback *)

Lemma combine_map_r {A B} (f : A -> B) (l : list A) :
  combine l (map f l) = map (fun a => (a, f a)) l.
Proof. induction l; simpl; congruence. Qed.

Lemma fold_adjustments (slot_hours : list Z) (adjs : list time_adjustment) :
  forall f : Z -> Q,
    fold_left (apply_adjustment slot_hours) adjs (map f slot_hours) =
    map (fun h =>
           fold_left (fun p a => if adjustment_mask a h
                                 then adjustment_factor a else p) adjs (f h))
        slot_hours.
Proof.
  induction adjs as [|a adjs IH]; intros f; simpl; [reflexivity|].
  unfold apply_adjustment at 2. rewrite combine_map_r, map_map.
  apply (IH (fun h => if adjustment_mask a h then adjustment_factor a else f h)).
Qed.

Lemma repeat_as_map {A B} (v : B) (l : list A) :
  repeat v (List.length l) = map (fun _ => v) l.
Proof. induction l; simpl; congruence. Qed.

Lemma length_arange (n : Z) : List.length (arange n) = Z.to_nat n.
Proof. unfold arange. now rewrite length_map, length_seq. Qed.

(** What the fallback returns: an hour and its rule score per slot. *)
Lemma fallback_slots_eq (hn : Z) (c : str) :
  0 <= hn ->
  fallback_slots hn c =
  Ok (map (fun h => (h, rule_score h))
          (map (fun i => (preferred_start (lower c) + i) mod 24) (arange hn))).
Proof.
  intros Hhn. unfold fallback_slots, np_full.
  destruct (Z.ltb_spec hn 0) as [?|_]; [lia|]. unfold bind. f_equal.
  set (hs := map _ (arange hn)).
  assert (E : Z.to_nat hn = List.length hs)
    by (unfold hs; now rewrite length_map, length_arange).
  rewrite E, repeat_as_map, fold_adjustments. apply combine_map_r.
Qed.

Lemma fallback_slots_ok (hn : Z) (c : str) (slots : list slot) :
  fallback_slots hn c = Ok slots -> 0 <= hn.
Proof.
  unfold fallback_slots, np_full.
  destruct (Z.ltb_spec hn 0); simpl; [discriminate | lia].
Qed.

Lemma rule_score_cases (h : Z) :
  (h < 7 \/ 20 < h -> rule_score h = (6 # 10)%Q) /\
  (9 <= h <= 11 -> rule_score h = (9 # 10)%Q) /\
  (14 <= h <= 16 -> rule_score h = (8 # 10)%Q) /\
  (7 <= h <= 20 -> ~ 9 <= h <= 11 -> ~ 14 <= h <= 16 ->
   rule_score h = (7 # 10)%Q).
Proof.
  unfold rule_score. simpl.
  destruct (Z.ltb_spec h 7), (Z.gtb_spec h 20), (Z.geb_spec h 9),
    (Z.leb_spec h 11), (Z.geb_spec h 14), (Z.leb_spec h 16); simpl;
    repeat split; intros; try reflexivity; lia.
Qed.

(** C5 (amended): on the fallback path every slot's score is the base 0.7
    run through the overrides morning (0.9 on 9..11), afternoon (0.8 on
    14..16) and edge (0.6), in that order, the last one that matches winning;
    hours 9..11 and 14..16 score above 0.7, and the edge override is the
    test [hour < 7 or hour > 20] on the wrapped hour, so those hours score
    0.6 and hour 20 keeps the base score. *)
Theorem fallback_scores self d g ah c slots :
  fallback_path self g ah c ->
  generate_dynamic_schedule self d g ah c = Ok slots ->
  forall h p, In (h, p) slots ->
    0 <= h < 24 /\
    p = fold_left (fun p a => if adjustment_mask a h
                              then adjustment_factor a else p)
                  [Band 9 11 (9 # 10); Band 14 16 (8 # 10);
                   Edge (0, 7) (20, 24) (6 # 10)] (7 # 10)%Q /\
    (h < 7 \/ 20 < h -> p = (6 # 10)%Q) /\
    (9 <= h <= 11 -> p = (9 # 10)%Q) /\
    (14 <= h <= 16 -> p = (8 # 10)%Q) /\
    (9 <= h <= 11 \/ 14 <= h <= 16 -> (7 # 10 < p)%Q) /\
    (7 <= h <= 20 -> ~ 9 <= h <= 11 -> ~ 14 <= h <= 16 -> p = (7 # 10)%Q).
Proof.
  intros Hpath Hgen h p Hin.
  rewrite (generate_fallback _ _ _ _ _ Hpath) in Hgen.
  pose proof (fallback_slots_ok _ _ _ Hgen) as Hhn.
  rewrite (fallback_slots_eq _ _ Hhn) in Hgen.
  injection Hgen as <-.
  apply in_map_iff in Hin as [h' [E Hin]]. injection E as -> <-.
  apply in_map_iff in Hin as [i [<- _]].
  set (h := (preferred_start (lower c) + i) mod 24).
  assert (Hh : 0 <= h < 24) by (apply Z.mod_pos_bound; lia).
  destruct (rule_score_cases h) as [He [Hm [Ha Hb]]].
  repeat split; try tauto; try lia.
  intros [H|H]; [rewrite (Hm H) | rewrite (Ha H)]; reflexivity.
Qed.

Lemma rule_based_fallback g ah c :
  split_ws (lower g) <> [] -> fallback_path rule_based_scheduler g ah c.
Proof.
  intros Hw. unfold fallback_path, extract_features, features_dict, py_div.
  simpl.
  destruct (split_ws (lower g)) as [|w ws]; [congruence|].
  eexists. simpl. split; reflexivity.
Qed.

Lemma fallback_scores_witness :
  generate_dynamic_schedule rule_based_scheduler "1 week" "design" 3
                            "morning" =
  Ok [(8, (7 # 10)%Q); (9, (9 # 10)%Q); (10, (9 # 10)%Q)] /\
  (7 # 10 < 9 # 10)%Q.
Proof.
  split; [reflexivity|].
  assert (P : fallback_path rule_based_scheduler "design" 3 "morning")
    by (apply rule_based_fallback; discriminate).
  destruct (fallback_scores rule_based_scheduler "1 week" "design" 3 "morning"
              _ P eq_refl 9 (9 # 10)%Q) as (_ & _ & _ & _ & _ & H & _).
  - right. now left.
  - apply H. lia.
Defined.

(** C5, as stated, fails: with five hours and an evening preference the
    fallback slots run 16..20, and hour 20, which lies outside [7,20),
    keeps the base score 0.7. *)
Lemma fallback_edge_counterexample :
  ~ (forall self d g ah c slots h p,
        fallback_path self g ah c ->
        generate_dynamic_schedule self d g ah c = Ok slots ->
        In (h, p) slots ->
        h < 7 \/ 20 <= h -> (p == 6 # 10)%Q).
Proof.
  intros H.
  assert (P : fallback_path rule_based_scheduler "design" 5 "evening")
    by (apply rule_based_fallback; vm_compute; discriminate).
  specialize (H rule_based_scheduler "1 week" "design" 5%Q "evening" _
                20 (7 # 10)%Q P eq_refl).
  assert (E : (7 # 10 == 6 # 10)%Q).
  { apply H; [vm_compute; tauto | lia]. }
  discriminate E.
Qed.

(* ------------------------------------------------------------------ *)
(** ** The number of slots *)

Lemma int_of_float_floor (x : Q) : (0 <= x)%Q -> int_of_float x = Qfloor x.
Proof.
  destruct x as [n d]. unfold Qle, int_of_float, Qfloor. simpl. intros H.
  apply Z.quot_div_nonneg; lia.
Qed.

Lemma hours_needed_range (ah : Q) :
  (0 < ah)%Q -> 0 <= hours_needed ah <= 12.
Proof.
  intros H. unfold hours_needed.
  rewrite int_of_float_floor by now apply Qlt_le_weak.
  assert (0 <= Qfloor ah).
  { change 0 with (Qfloor 0). apply Qfloor_resp_le. now apply Qlt_le_weak. }
  lia.
Qed.

Lemma length_slice_to {A} (n : Z) (xs : list A) :
  0 <= n -> (List.length (slice_to n xs) <= Z.to_nat n)%nat.
Proof.
  intros H. unfold slice_to. destruct (Z.ltb_spec n 0); [lia|].
  rewrite length_firstn. lia.
Qed.

Lemma length_normalised_slots (n : Z) (os : list slot) :
  List.length (normalised_slots n os) = List.length (slice_to n os).
Proof.
  unfold normalised_slots. destruct (Qlt_le_dec _ _); [|reflexivity].
  apply length_map.
Qed.

(** C2 (amended): for available hours in (0, 24] the number of slot hours
    is [min(int(available_hours), 12)], the whole part of the hours capped
    at 12 (so at most [min(available_hours, 12)], and equal to it when the
    hours are a whole number); both paths return at most that many slots,
    and the fallback returns exactly that many, at consecutive hours from
    the preferred start, modulo 24. *)
Theorem slots_at_most_hours_needed self d g ah c slots :
  (0 < ah)%Q -> (ah <= 24)%Q ->
  generate_dynamic_schedule self d g ah c = Ok slots ->
  hours_needed ah = Z.min (Qfloor ah) 12 /\
  (inject_Z (hours_needed ah) <= Qmin ah 12)%Q /\
  (forall n : Z, (ah == inject_Z n)%Q ->
                 (inject_Z (hours_needed ah) == Qmin ah 12)%Q) /\
  Z.of_nat (List.length slots) <= hours_needed ah /\
  (fallback_path self g ah c ->
   Z.of_nat (List.length slots) = hours_needed ah /\
   map fst slots =
   map (fun i => (preferred_start (lower c) + i) mod 24)
       (arange (hours_needed ah))).
Proof.
  intros Hpos Hle Hgen.
  pose proof (hours_needed_range ah Hpos) as Hr.
  assert (Hfl : hours_needed ah = Z.min (Qfloor ah) 12).
  { unfold hours_needed. now rewrite int_of_float_floor by now apply Qlt_le_weak. }
  assert (Hq : forall a b : Z, (inject_Z (Z.min a b) ==
                                Qmin (inject_Z a) (inject_Z b))%Q).
  { intros a b. unfold Qmin.
    destruct (Qle_bool (inject_Z a) (inject_Z b)) eqn:E.
    - apply Qle_bool_iff in E. rewrite <- Zle_Qle in E.
      now rewrite Z.min_l.
    - assert (~ (inject_Z a <= inject_Z b)%Q)
        by (rewrite <- Qle_bool_iff; congruence).
      rewrite <- Zle_Qle in H. now rewrite Z.min_r by lia. }
  split; [exact Hfl|]. split; [| split; [| split]].
  - rewrite Hfl. unfold Qmin. destruct (Qle_bool ah 12) eqn:E.
    + apply Qle_trans with (inject_Z (Qfloor ah)); [| apply Qfloor_le].
      rewrite <- Zle_Qle. lia.
    + change 12%Q with (inject_Z 12). rewrite <- Zle_Qle. lia.
  - intros n Hn. rewrite Hfl, Hq.
    assert (Qfloor ah = n) as -> by (rewrite Hn; apply Qfloor_Z).
    unfold Qmin. change 12%Q with (inject_Z 12).
    assert (Qle_bool ah (inject_Z 12) = Qle_bool (inject_Z n) (inject_Z 12))
      as -> by now rewrite Hn.
    destruct (Qle_bool _ _); [now symmetry | reflexivity].
  - destruct (generate_cases _ _ _ _ _ _ Hgen) as [[_ Hf] | [os [_ ->]]].
    + rewrite fallback_slots_eq in Hf by lia. injection Hf as <-.
      rewrite !length_map, length_arange. lia.
    + rewrite length_normalised_slots.
      pose proof (length_slice_to (hours_needed ah) os). lia.
  - intros Hpath. rewrite (generate_fallback _ _ _ _ _ Hpath) in Hgen.
    rewrite fallback_slots_eq in Hgen by lia. injection Hgen as <-.
    split.
    + rewrite !length_map, length_arange. lia.
    + rewrite map_map. simpl. now rewrite map_id.
Qed.

Lemma slots_at_most_hours_needed_witness :
  hours_needed (15 # 2) = 7 /\
  generate_dynamic_schedule rule_based_scheduler "1 week" "design" (15 # 2)
                            "evening" =
  Ok [(16, (8 # 10)%Q); (17, (7 # 10)%Q); (18, (7 # 10)%Q); (19, (7 # 10)%Q);
      (20, (7 # 10)%Q); (21, (6 # 10)%Q); (22, (6 # 10)%Q)].
Proof.
  split; [| reflexivity].
  destruct (slots_at_most_hours_needed rule_based_scheduler "1 week" "design"
              (15 # 2) "evening" _ eq_refl ltac:(discriminate) eq_refl)
    as [H _].
  rewrite H. reflexivity.
Defined.

(** C2, as stated, fails: seven and a half hours give seven slot hours,
    not [min(7.5, 12)]. *)
Lemma hours_needed_counterexample :
  ~ (forall ah : Q, (0 < ah)%Q -> (ah <= 24)%Q ->
                    (inject_Z (hours_needed ah) == Qmin ah 12)%Q).
Proof.
  intros H. specialize (H (15 # 2)%Q eq_refl ltac:(discriminate)).
  discriminate H.
Qed.

(* ------------------------------------------------------------------ *)
(** ** Time normalisation *)

Lemma digit_not_space (c : ascii) : is_digit c = true -> is_space c = false.
Proof.
  unfold is_digit, is_space, ascii_in. intros H.
  apply andb_true_iff in H as [H1 H2].
  apply Nat.leb_le in H1. apply Nat.leb_le in H2.
  apply orb_false_iff. split; apply andb_false_iff.
  - right. apply Nat.leb_gt. lia.
  - right. apply Nat.leb_gt. lia.
Qed.

Lemma digit_not_char (c a : ascii) :
  is_digit c = true -> is_digit a = false -> eqb_char c a = false.
Proof.
  intros Hc Ha. destruct (eqb_char c a) eqn:E; [|reflexivity].
  apply eqb_char_iff in E. congruence.
Qed.

Lemma lstrip_nonspace (c : ascii) (x : str) :
  is_space c = false -> lstrip (c :: x) = c :: x.
Proof. intros H. simpl. now rewrite H. Qed.

Lemma digit_not_int_space (c : ascii) :
  is_digit c = true -> is_int_space c = false.
Proof.
  intros H. unfold is_int_space. rewrite (digit_not_char c " " H eq_refl).
  rewrite orb_false_r. pose proof (digit_not_space c H) as S.
  unfold is_space in S. now apply orb_false_iff in S.
Qed.

(** A run of digits has no whitespace for [int] to skip. *)
Lemma int_strip_digits (d : str) :
  forallb is_digit d = true -> int_strip d = d.
Proof.
  intros H. unfold int_strip.
  assert (L : forall x : str, forallb is_digit x = true -> int_lstrip x = x).
  { intros [|c x] Hx; [reflexivity|]. simpl in *.
    apply andb_true_iff in Hx as [Hc _].
    now rewrite (digit_not_int_space c Hc). }
  rewrite (L d H), L; [apply rev_involutive|].
  rewrite forallb_forall in *. intros c Hc. apply H. now apply in_rev.
Qed.

Lemma int_digits_all (d : str) :
  forallb is_digit d = true ->
  forall (b : bool) (acc : Z),
    (d <> [] \/ b = true) ->
    int_digits b acc d =
    Some (fold_left (fun acc c => 10 * acc + digit_value c) d acc).
Proof.
  induction d as [|c d IH]; simpl; intros H b acc Hb.
  - destruct Hb as [Hb | ->]; [congruence | reflexivity].
  - apply andb_true_iff in H as [Hc Hd]. rewrite Hc.
    apply IH; [exact Hd | now right].
Qed.

Lemma count_digits_all (d : str) :
  forallb is_digit d = true -> count_digits d = List.length d.
Proof.
  unfold count_digits. induction d as [|c d IH]; simpl; [reflexivity|].
  intros H. apply andb_true_iff in H as [Hc Hd]. rewrite Hc. simpl.
  now rewrite IH.
Qed.

Lemma py_int_digits_cases (d : str) :
  forallb is_digit d = true -> d <> [] ->
  py_int d =
  if (List.length d <=? int_max_str_digits)%nat then Ok (digits_value d)
  else Raise (ValueError
                "Exceeds the limit (4300 digits) for integer string conversion").
Proof.
  intros H Hne. unfold py_int. rewrite (int_strip_digits d H).
  rewrite (count_digits_all d H).
  destruct d as [|c d]; [congruence|].
  assert (Hc : is_digit c = true) by (simpl in H; now apply andb_true_iff in H).
  rewrite (digit_not_char c "-" Hc eq_refl), (digit_not_char c "+" Hc eq_refl).
  rewrite (int_digits_all (c :: d) H false 0) by (left; discriminate).
  reflexivity.
Qed.

Lemma py_int_digits (d : str) :
  forallb is_digit d = true -> d <> [] ->
  (List.length d <= int_max_str_digits)%nat ->
  py_int d = Ok (digits_value d).
Proof.
  intros H Hne Hl. rewrite (py_int_digits_cases d H Hne).
  destruct (Nat.leb_spec (List.length d) int_max_str_digits);
    [reflexivity | lia].
Qed.

Lemma digits_from_acc (d : Decimal.uint) (p : positive) :
  fold_left (fun acc c => 10 * acc + digit_value c)
            (list_ascii_of_string (NilEmpty.string_of_uint d)) (Z.pos p) =
  Z.pos (Pos.of_uint_acc d p).
Proof.
  revert p.
  induction d; intros p;
    cbn [NilEmpty.string_of_uint list_ascii_of_string fold_left
         Pos.of_uint_acc];
    try reflexivity; rewrite <- IHd; f_equal;
    match goal with
    | |- context [digit_value ?c] =>
        let v := eval compute in (digit_value c) in
        change (digit_value c) with v
    end; lia.
Qed.

Lemma digits_of_uint (d : Decimal.uint) :
  digits_value (list_ascii_of_string (NilEmpty.string_of_uint d)) =
  Z.of_N (N.of_uint d).
Proof.
  unfold digits_value, N.of_uint.
  induction d; simpl; try reflexivity; try exact IHd;
    apply (digits_from_acc d).
Qed.

Lemma digits_value_decimal (n : N) : digits_value (decimal n) = Z.of_N n.
Proof.
  unfold decimal. now rewrite digits_of_uint, DecimalN.Unsigned.of_to.
Qed.

Lemma decimal_digits (n : N) :
  forallb is_digit (decimal n) = true /\ decimal n <> [].
Proof.
  unfold decimal. split.
  - induction (N.to_uint n); simpl; trivial.
  - destruct n as [|p]; [discriminate|]. simpl.
    pose proof (DecimalPos.Unsigned.to_uint_nonnil p) as H.
    destruct (Pos.to_uint p); [congruence | discriminate ..].
Qed.

Lemma uint_of_digits_text (d : str) :
  forallb is_digit d = true ->
  list_ascii_of_string (NilEmpty.string_of_uint (uint_of_digits d)) = d.
Proof.
  induction d as [|c d IH]; [reflexivity|]. intros H.
  apply andb_true_iff in H as [Hc Hd]. specialize (IH Hd).
  destruct c as [[] [] [] [] [] [] [] []]; try discriminate Hc;
    simpl; now rewrite IH.
Qed.

Lemma length_uint_text (u : Decimal.uint) :
  List.length (list_ascii_of_string (NilEmpty.string_of_uint u)) =
  Decimal.nb_digits u.
Proof. induction u; simpl; congruence. Qed.

Lemma digits_value_nonneg (d : str) :
  forallb is_digit d = true -> 0 <= digits_value d.
Proof.
  intros H. rewrite <- (uint_of_digits_text d H), digits_of_uint. lia.
Qed.

(** The number a run of digits denotes prints in no more digits. *)
Lemma digits_value_fits (d : str) :
  forallb is_digit d = true -> d <> [] ->
  (List.length d <= int_max_str_digits)%nat ->
  fits_str_digits (digits_value d).
Proof.
  intros H Hne Hl. unfold fits_str_digits.
  rewrite Z.abs_eq by now apply digits_value_nonneg.
  apply Nat.le_trans with (List.length d); [| exact Hl].
  rewrite <- (uint_of_digits_text d H) at 1. rewrite digits_of_uint, N2Z.id.
  unfold decimal. rewrite DecimalN.Unsigned.to_of, length_uint_text.
  rewrite <- (uint_of_digits_text d H) at 2. rewrite length_uint_text.
  apply DecimalFacts.nb_digits_unorm.
  destruct d as [|c d]; [congruence|]. simpl.
  destruct c as [[] [] [] [] [] [] [] []]; discriminate.
Qed.

Lemma py_format_fits (h : Z) :
  fits_str_digits h -> py_format_02d h = Ok (format_02d h).
Proof.
  unfold fits_str_digits, py_format_02d. intros H.
  destruct (Nat.leb_spec (List.length (decimal (Z.to_N (Z.abs h))))
                         int_max_str_digits); [reflexivity | lia].
Qed.

Lemma py_format_over (h : Z) :
  ~ fits_str_digits h -> exists e, py_format_02d h = Raise e.
Proof.
  unfold fits_str_digits, py_format_02d. intros H.
  destruct (Nat.leb_spec (List.length (decimal (Z.to_N (Z.abs h))))
                         int_max_str_digits); [lia | eexists; reflexivity].
Qed.

Lemma fits_zero : fits_str_digits 0.
Proof. unfold fits_str_digits, int_max_str_digits. simpl. lia. Qed.

Lemma take_digits_all (x : str) : forallb is_digit (take_digits x) = true.
Proof.
  induction x as [|c x IH]; simpl; [reflexivity|].
  destruct (is_digit c) eqn:E; simpl; [now rewrite E | reflexivity].
Qed.

Lemma re_search_digits_some (x d : str) :
  re_search_digits x = Some d -> forallb is_digit d = true /\ d <> [].
Proof.
  revert d. induction x as [|c x IH]; simpl; intros d; [discriminate|].
  destruct (is_digit c) eqn:E; [| apply IH].
  intros H. injection H as <-. split.
  - simpl. rewrite E. apply take_digits_all.
  - discriminate.
Qed.

Lemma format_time_unmarked (t : str) :
  has_marker (normalise_time t) = false -> _format_time t = normalise_time t.
Proof. intros H. unfold _format_time. now rewrite H. Qed.

(** The hour a marked time is given: plus 12 for PM unless it is 12, and 0
    for 12 AM. *)
Lemma format_time_marked (t d : str) :
  has_marker (normalise_time t) = true ->
  re_search_digits (before ":" (normalise_time t)) = Some d ->
  (List.length d <= int_max_str_digits)%nat ->
  _format_time t =
  match py_format_02d
          (if (contains "PM" (normalise_time t) &&
               negb (digits_value d =? 12))%bool
           then digits_value d + 12
           else if (contains "AM" (normalise_time t) &&
                    (digits_value d =? 12))%bool
                then 0 else digits_value d) with
  | Ok text => text ++ of_string ":00"
  | Raise _ => normalise_time t
  end.
Proof.
  intros Hm Hd Hl. unfold _format_time, parse_marked_time. rewrite Hm, Hd.
  destruct (re_search_digits_some _ _ Hd) as [H1 H2].
  unfold bind at 1. rewrite (py_int_digits d H1 H2 Hl).
  unfold bind at 1. unfold bind.
  destruct (py_format_02d _); reflexivity.
Qed.

Lemma format_time_unreadable (t : str) :
  has_marker (normalise_time t) = true ->
  (re_search_digits (before ":" (normalise_time t)) = None \/
   exists d, re_search_digits (before ":" (normalise_time t)) = Some d /\
             (int_max_str_digits < List.length d)%nat) ->
  _format_time t = normalise_time t.
Proof.
  intros Hm H. unfold _format_time, parse_marked_time. rewrite Hm.
  destruct H as [-> | [d [Hd Hl]]]; [reflexivity|]. rewrite Hd.
  destruct (re_search_digits_some _ _ Hd) as [H1 H2].
  unfold bind at 1. rewrite (py_int_digits_cases d H1 H2).
  destruct (Nat.leb_spec (List.length d) int_max_str_digits);
    [lia | reflexivity].
Qed.

Lemma normalise_fixed (t : str) :
  (forall c, In c t -> c <> " "%char /\ upper_char c = c) ->
  normalise_time t = t.
Proof.
  unfold normalise_time, remove_spaces, upper.
  induction t as [|c t IH]; intros H; [reflexivity|]. simpl.
  destruct (H c (or_introl eq_refl)) as [H1 H2].
  destruct (eqb_char c " ") eqn:E; [apply eqb_char_iff in E; congruence|].
  simpl. rewrite H2. f_equal. apply IH. intros a Ha. apply H. now right.
Qed.

(** C6 (amended): time normalisation first removes the spaces and
    upper-cases the text.  With an AM/PM marker in that text and, before
    its first colon, a run of digits that [int] reads (at most 4300 of
    them), the result is the hour, zero-padded to two digits, followed by
    ":00", where the hour is the number of the first run plus 12 for PM
    unless it is 12, and 0 for 12 AM; so "2pm" gives "14:00" and "12am"
    gives "00:00".  A marked text with no hour to read (no digit before the
    first colon, as in "am", or an hour beyond the limit) comes back as the
    normalised text, and so does every text with no marker: it is unchanged
    when it has neither spaces nor lower-case letters, as "9:00". *)
Theorem format_time_spec :
  _format_time "2pm" = "14:00" /\
  _format_time "12am" = "00:00" /\
  _format_time "9:00" = "9:00" /\
  (forall t d : str,
      let n := normalise_time t in
      let h := digits_value d in
      has_marker n = true ->
      re_search_digits (before ":" n) = Some d ->
      (List.length d <= int_max_str_digits)%nat ->
      py_int d = Ok h /\
      (contains "PM" n = true -> h <> 12 -> fits_str_digits (h + 12) ->
       _format_time t = format_02d (h + 12) ++ of_string ":00") /\
      (contains "PM" n = true -> h <> 12 -> ~ fits_str_digits (h + 12) ->
       _format_time t = n) /\
      (contains "AM" n = true -> h = 12 -> _format_time t = "00:00") /\
      ((contains "PM" n = false \/ h = 12) ->
       (contains "AM" n = false \/ h <> 12) ->
       _format_time t = format_02d h ++ of_string ":00")) /\
  (forall t : str,
      let n := normalise_time t in
      has_marker n = true ->
      (re_search_digits (before ":" n) = None \/
       exists d, re_search_digits (before ":" n) = Some d /\
                 (int_max_str_digits < List.length d)%nat) ->
      _format_time t = n) /\
  (forall t : str,
      has_marker (normalise_time t) = false ->
      _format_time t = upper (remove_spaces t) /\
      ((forall c, In c t -> c <> " "%char /\ upper_char c = c) ->
       _format_time t = t)).
Proof.
  split; [reflexivity|]. split; [reflexivity|]. split; [reflexivity|].
  split; [| split].
  - intros t d n h Hm Hd Hl.
    destruct (re_search_digits_some _ _ Hd) as [H1 H2].
    split; [now apply py_int_digits|].
    pose proof (format_time_marked t d Hm Hd Hl) as E. fold n h in E.
    split; [| split; [| split]].
    + intros Hpm Hh Hf. rewrite E, Hpm.
      destruct (Z.eqb_spec h 12); [contradiction|]. simpl.
      now rewrite (py_format_fits _ Hf).
    + intros Hpm Hh Hf. rewrite E, Hpm.
      destruct (Z.eqb_spec h 12); [contradiction|]. simpl.
      destruct (py_format_over _ Hf) as [e ->]. reflexivity.
    + intros Ham Hh. rewrite E, Ham.
      destruct (Z.eqb_spec h 12); [| contradiction].
      rewrite andb_false_r. reflexivity.
    + intros Hpm Ham. rewrite E.
      assert (Hf : fits_str_digits h) by now apply digits_value_fits.
      destruct (Z.eqb_spec h 12) as [E12|N12].
      * rewrite andb_false_r.
        destruct Ham as [-> | K]; [| contradiction].
        simpl. now rewrite (py_format_fits _ Hf).
      * destruct Hpm as [-> | K]; [| contradiction].
        rewrite andb_false_r. simpl. now rewrite (py_format_fits _ Hf).
  - intros t n. apply format_time_unreadable.
  - intros t Hm. split; [now apply format_time_unmarked|].
    intros H. rewrite (format_time_unmarked t Hm). now apply normalise_fixed.
Qed.

Lemma format_time_spec_witness :
  _format_time "at 7 PM" = "19:00" /\ _format_time "am session" = "AMSESSION"
  /\ _format_time "1 : 30" = "1:30" /\ _format_time "10:15" = "10:15".
Proof.
  destruct format_time_spec as (_ & _ & _ & Hmark & Hnone & Hplain).
  split; [| split; [| split]].
  - destruct (Hmark "at 7 PM" "7" eq_refl eq_refl) as (_ & H & _).
    + unfold int_max_str_digits. simpl. lia.
    + rewrite H; [reflexivity | reflexivity | discriminate |].
      unfold fits_str_digits, int_max_str_digits. simpl. lia.
  - apply (Hnone "am session" eq_refl). now left.
  - destruct (Hplain "1 : 30" eq_refl) as [H _]. rewrite H. reflexivity.
  - destruct (Hplain "10:15" eq_refl) as [_ H]. apply H.
    intros c Hc. simpl in Hc.
    repeat (destruct Hc as [<- | Hc]; [split; [discriminate | reflexivity]|]).
    destruct Hc.
Defined.

(** C6, as stated, fails in both halves: "noon" holds no AM/PM marker, and
    comes back upper-cased; "am" holds a marker and no hour, and comes back
    as "AM", which is no hour followed by ":00". *)
Lemma format_time_counterexample :
  ~ (forall t : str,
        has_marker (upper t) = false ->
        has_marker (normalise_time t) = false ->
        _format_time t = t) /\
  ~ (forall t : str,
        has_marker (normalise_time t) = true ->
        exists h, _format_time t = format_02d h ++ of_string ":00").
Proof.
  split.
  - intros H. specialize (H "noon" eq_refl eq_refl). discriminate H.
  - intros H. destruct (H "am" eq_refl) as [h E].
    assert (K : In ":"%char (_format_time "am")).
    { rewrite E. apply in_or_app. right. now left. }
    simpl in K. destruct K as [K | [K | []]]; discriminate K.
Qed.

(* ------------------------------------------------------------------ *)
(** ** Line classification *)

Lemma classify_skipped (line : str) :
  classify line = Skipped <-> line = [] \/ skip_rule line = true.
Proof.
  unfold classify.
  destruct line as [|c line]; [simpl; split; [now left | reflexivity]|].
  cbn [orb]. destruct (skip_rule (c :: line)).
  - split; [now right | reflexivity].
  - split.
    + intros H. exfalso. revert H.
      destruct (contains "QUARTER" _); [discriminate|].
      destruct (_ && _)%bool; [discriminate|].
      destruct (existsb _ days); [discriminate|].
      destruct (contains ":" _); [discriminate|].
      destruct (negb _); discriminate.
    + intros [H|H]; discriminate.
Qed.

Lemma words_from_substring (w : str) (x : str) :
  forall cur, In w (words_from cur x) ->
              exists pre post, rev cur ++ x = pre ++ w ++ post.
Proof.
  induction x as [|c x IH]; intros cur H; simpl in H.
  - destruct cur as [|a cur]; [destruct H|].
    destruct H as [<- | []]. exists [], []. now rewrite !app_nil_r.
  - destruct (is_alpha c).
    + destruct (IH _ H) as [pre [post E]]. exists pre, post.
      rewrite <- E. simpl. now rewrite <- app_assoc.
    + assert (K : w = rev cur \/ In w (words_from [] x)).
      { destruct cur; [now right | destruct H; [left; congruence | now right]]. }
      destruct K as [-> | K].
      * exists [], (c :: x). reflexivity.
      * destruct (IH _ K) as [pre [post E]]. simpl in E.
        exists (rev cur ++ c :: pre), post. rewrite E.
        now rewrite <- app_assoc.
Qed.

Lemma has_word_contains (w x : str) :
  has_word w x = true -> contains w (lower x) = true.
Proof.
  unfold has_word, mem, words_of. rewrite existsb_exists.
  intros [v [Hin Hv]]. apply eqb_iff in Hv. subst v.
  apply contains_iff. apply (words_from_substring w (lower x) [] Hin).
Qed.

(** C3 (amended): a non-empty line is dropped by the continuation/rest rule
    exactly when it contains the text "[Continue" or, lower-cased, contains
    "rest" anywhere, inside a longer word too; such a line leaves the
    formatted lines as they were, and a line with neither is not dropped by
    this rule.  A line with the whole word "rest" is among the dropped. *)
Theorem skip_rule_spec slots (st : fmt_state) (raw : str) :
  let line := strip raw in
  line <> [] ->
  (classify line = Skipped <->
   (exists pre post, line = pre ++ of_string "[Continue" ++ post) \/
   (exists pre post, lower line = pre ++ of_string "rest" ++ post)) /\
  (classify line = Skipped -> format_line slots st raw = st) /\
  (has_word "rest" line = true -> classify line = Skipped).
Proof.
  intros line Hne.
  assert (E : classify line = Skipped <-> skip_rule line = true).
  { rewrite classify_skipped. tauto. }
  split; [| split].
  - rewrite E. unfold skip_rule.
    now rewrite orb_true_iff, !contains_iff.
  - intros H. unfold format_line. destruct st as [ls cs]. fold line.
    now rewrite H.
  - intros H. apply E. unfold skip_rule.
    now rewrite (has_word_contains _ _ H), orb_true_r.
Qed.

Lemma skip_rule_spec_witness :
  classify (strip "  [Rest of the week follows the same pattern] ") = Skipped
  /\ classify (strip "Forest walk") = Skipped
  /\ classify (strip "Buy milk") <> Skipped.
Proof.
  split; [| split].
  - destruct (skip_rule_spec [] ([], None)
                "  [Rest of the week follows the same pattern] ")
      as (_ & _ & H); [discriminate|].
    apply H. reflexivity.
  - destruct (skip_rule_spec [] ([], None) "Forest walk") as (H & _);
      [discriminate|].
    apply H. right. exists (of_string "fo"), (of_string " walk"). reflexivity.
  - destruct (skip_rule_spec [] ([], None) "Buy milk") as (H & _);
      [discriminate|].
    intros K. apply H in K. revert K. rewrite <- !contains_iff.
    intros [K|K]; discriminate K.
Defined.

(** C3, as stated, fails: "Lunch at restaurant" holds no continuation
    marker (in any letter case) and no word "rest", and is dropped. *)
Lemma skip_rule_counterexample :
  ~ (forall line : str,
        line <> [] ->
        (classify line = Skipped <->
         contains "[continue" (lower line) = true \/
         has_word "rest" line = true)).
Proof.
  intros H.
  destruct (H "Lunch at restaurant" ltac:(discriminate)) as [H1 _].
  destruct (H1 eq_refl) as [K|K]; discriminate K.
Qed.

(* ------------------------------------------------------------------ *)
(** ** Stripping keeps substrings without whitespace *)

Lemma is_space_upper (c : ascii) : is_space (upper_char c) = is_space c.
Proof. destruct c as [[] [] [] [] [] [] [] []]; reflexivity. Qed.

Lemma lstrip_map (f : ascii -> ascii) (x : str) :
  (forall c, is_space (f c) = is_space c) ->
  lstrip (map f x) = map f (lstrip x).
Proof.
  intros H. induction x as [|c x IH]; simpl; [reflexivity|].
  rewrite H. destruct (is_space c); [exact IH | reflexivity].
Qed.

Lemma strip_upper (x : str) : strip (upper x) = upper (strip x).
Proof.
  unfold strip, rstrip, upper.
  rewrite (lstrip_map upper_char x is_space_upper), <- map_rev.
  now rewrite (lstrip_map upper_char _ is_space_upper), map_rev.
Qed.

Lemma contains_lstrip (a : ascii) (n x : str) :
  is_space a = false ->
  contains (a :: n) x = true -> contains (a :: n) (lstrip x) = true.
Proof.
  intros Ha. induction x as [|c x IH]; [trivial|].
  intros H. simpl lstrip. destruct (is_space c) eqn:Ec; [| exact H].
  apply IH. simpl in H. apply orb_true_iff in H as [H|H]; [| exact H].
  apply andb_true_iff in H as [H _]. apply eqb_char_iff in H. congruence.
Qed.

Lemma contains_rev (n x : str) :
  contains n x = true -> contains (rev n) (rev x) = true.
Proof.
  rewrite !contains_iff. intros [pre [post ->]].
  exists (rev post), (rev pre). now rewrite !rev_app_distr, app_assoc.
Qed.

Lemma contains_strip (n x : str) :
  n <> [] -> (forall c, In c n -> is_space c = false) ->
  contains n x = true -> contains n (strip x) = true.
Proof.
  intros Hne Hn H. unfold strip, rstrip.
  destruct n as [|a n]; [congruence|].
  apply (contains_lstrip a n x (Hn a (or_introl eq_refl))) in H.
  apply contains_rev in H.
  destruct (rev (a :: n)) as [|b m] eqn:E.
  - apply (f_equal (@List.length ascii)) in E. rewrite length_rev in E.
    discriminate.
  - assert (Hb : is_space b = false).
    { apply Hn. apply in_rev. rewrite E. now left. }
    apply (contains_lstrip b m _ Hb) in H. apply contains_rev in H.
    rewrite <- E, rev_involutive in H. exact H.
Qed.

Lemma day_no_space (day : str) :
  In day days -> day <> [] /\ forall c, In c day -> is_space c = false.
Proof.
  intros H. split.
  - intros ->. simpl in H. repeat (destruct H as [H|H]; [discriminate H|]).
    exact H.
  - assert (F : forallb (forallb (fun c => negb (is_space c))) days = true)
      by reflexivity.
    rewrite forallb_forall in F. specialize (F day H).
    rewrite forallb_forall in F. intros c Hc. specialize (F c Hc).
    now destruct (is_space c).
Qed.

Lemma weekday_survives_strip (raw : str) :
  (exists day, In day days /\ contains day (upper raw) = true) ->
  existsb (fun day => contains day (upper (strip raw))) days = true.
Proof.
  intros [day [Hin H]]. apply existsb_exists. exists day. split; [exact Hin|].
  destruct (day_no_space day Hin) as [Hne Hsp].
  rewrite <- strip_upper. now apply contains_strip.
Qed.

(** C10 (amended): a raw line that contains a weekday name in any letter
    case, inside a longer word or a time-block line too, never reaches the
    time-block path; unless the line is dropped by the continuation/rest
    rule or taken as a quarter or week-range header, which are tested
    first, it is a day header: a blank line, then the text before the
    line's first colon, stripped and capitalised. *)
Theorem weekday_line_spec slots (st : fmt_state) (raw : str) :
  let line := strip raw in
  (exists day, In day days /\ contains day (upper raw) = true) ->
  classify line <> TimeBlock /\
  (skip_rule line = false ->
   contains "QUARTER" (upper line) = false ->
   (contains "WEEK" (upper line) && contains "-" line)%bool = false ->
   classify line = DayHeader /\
   format_line slots st raw =
   (fst st ++ [of_string ""; capitalize (strip (before ":" line))],
    Some DAY)).
Proof.
  intros line Hday. apply weekday_survives_strip in Hday. fold line in Hday.
  split.
  - unfold classify.
    destruct (_ || skip_rule line)%bool; [discriminate|].
    destruct (contains "QUARTER" _); [discriminate|].
    destruct (_ && _)%bool; [discriminate|].
    rewrite Hday. discriminate.
  - intros Hs Hq Hw.
    assert (Hne : line <> []).
    { intros E. rewrite E in Hday. discriminate Hday. }
    assert (C : classify line = DayHeader).
    { unfold classify. rewrite Hs, Hq, Hw, Hday.
      destruct line; [congruence | reflexivity]. }
    split; [exact C|].
    unfold format_line. destruct st as [ls cs]. fold line. now rewrite C.
Qed.

Lemma weekday_line_spec_witness :
  format_line [] ([], None) "  monday 9am: stand-up " =
  ([of_string ""; of_string "Monday 9am"], Some DAY).
Proof.
  destruct (weekday_line_spec [] ([], None) "  monday 9am: stand-up ")
    as [_ H].
  - exists (of_string "MONDAY"). split; [now left | reflexivity].
  - destruct (H eq_refl eq_refl eq_refl) as [_ E]. exact E.
Defined.

(** C10, as stated, fails: "Sunday: rest" names a weekday and is dropped by
    the rest rule, which is tested first. *)
Lemma weekday_line_counterexample :
  ~ (forall raw : str,
        (exists day, In day days /\ contains day (upper raw) = true) ->
        classify (strip raw) = DayHeader).
Proof.
  intros H.
  assert (K : classify (strip "Sunday: rest") = DayHeader).
  { apply H. exists (of_string "SUNDAY").
    split; [do 6 right; now left | reflexivity]. }
  discriminate K.
Qed.

(* ------------------------------------------------------------------ *)
(** ** Time-block lines *)

Lemma upper_char_space (c : ascii) :
  eqb_char (upper_char c) " " = eqb_char c " ".
Proof. destruct c as [[] [] [] [] [] [] [] []]; reflexivity. Qed.

Lemma upper_char_colon (c : ascii) :
  eqb_char (upper_char c) ":" = eqb_char c ":".
Proof. destruct c as [[] [] [] [] [] [] [] []]; reflexivity. Qed.

Lemma upper_char_plain (c : ascii) :
  plain_char c = true -> plain_char (upper_char c) = true.
Proof. destruct c as [[] [] [] [] [] [] [] []]; trivial. Qed.

Lemma decimal_plain (n : N) : forallb plain_char (decimal n) = true.
Proof.
  unfold decimal. induction (N.to_uint n) as [|d IH|d IH|d IH|d IH|d IH|d IH
                                              |d IH|d IH|d IH|d IH];
    simpl; trivial.
Qed.

Lemma format_02d_plain (h : Z) : forallb plain_char (format_02d h) = true.
Proof.
  unfold format_02d.
  destruct (h <? 0); destruct (_ <? 2)%nat; simpl;
    now rewrite decimal_plain.
Qed.

Lemma normalise_plain (x : str) :
  forallb plain_char x = true -> forallb plain_char (normalise_time x) = true.
Proof.
  unfold normalise_time, remove_spaces, upper.
  induction x as [|c x IH]; simpl; [trivial|].
  intros H. apply andb_true_iff in H as [Hc Hx].
  destruct (negb (eqb_char c " ")); simpl; [| now apply IH].
  now rewrite (upper_char_plain c Hc), IH.
Qed.

Lemma plain_no_marker (x : str) :
  forallb plain_char x = true -> has_marker x = false.
Proof.
  intros H. rewrite forallb_forall in H. unfold has_marker.
  apply orb_false_iff. split.
  - destruct (contains "AM" x) eqn:E; [|reflexivity].
    apply (contains_In "A" (of_string "M")) in E. apply H in E. discriminate E.
  - destruct (contains "PM" x) eqn:E; [|reflexivity].
    apply (contains_In "P" (of_string "M")) in E. apply H in E. discriminate E.
Qed.

Lemma plain_no_colon (x : str) :
  forallb plain_char x = true -> ~ In ":"%char x.
Proof.
  intros H K. rewrite forallb_forall in H. apply H in K. discriminate K.
Qed.

Lemma normalise_no_colon (x : str) :
  ~ In ":"%char x -> ~ In ":"%char (normalise_time x).
Proof.
  unfold normalise_time, remove_spaces, upper. intros H K.
  apply in_map_iff in K as [c [E K]]. apply filter_In in K as [K _].
  apply eqb_char_iff in E. rewrite upper_char_colon in E.
  apply eqb_char_iff in E. congruence.
Qed.

Lemma normalise_no_space (x : str) :
  remove_spaces (normalise_time x) = normalise_time x.
Proof.
  unfold normalise_time, remove_spaces, upper.
  induction x as [|c x IH]; simpl; [reflexivity|].
  destruct (eqb_char c " ") eqn:E; simpl; [exact IH|].
  rewrite upper_char_space, E. simpl. now rewrite IH.
Qed.

Lemma length_normalise (x : str) :
  List.length (normalise_time x) = List.length (remove_spaces x).
Proof. unfold normalise_time, upper. apply length_map. Qed.

(** [_format_time] returns the normalised text, or, for a text with a
    marker, an hour followed by ":00". *)
Lemma format_time_cases (t : str) :
  _format_time t = normalise_time t \/
  (has_marker (normalise_time t) = true /\
   exists h, _format_time t = format_02d h ++ of_string ":00").
Proof.
  unfold _format_time. destruct (has_marker (normalise_time t)) eqn:Hm;
    [| now left].
  unfold parse_marked_time.
  destruct (re_search_digits _) as [d|];
    cbv beta iota delta [bind try_except]; [| now left].
  destruct (py_int d) as [h|e]; cbv beta iota; [| now left].
  unfold py_format_02d.
  match goal with
  | |- context [(?a <=? ?b)%nat] => destruct (a <=? b)%nat
  end; cbv beta iota; [| now left].
  right. split; [reflexivity|]. eexists. reflexivity.
Qed.

(** The rendering of a time-block line never gives the line back. *)
Lemma rendered_differs (part0 part1 task prio : str) :
  ~ In ":"%char part0 ->
  _format_time part0 ++ of_string " - " ++ task ++ of_string " (" ++ prio ++
    of_string ")" <> part0 ++ ":"%char :: part1.
Proof.
  intros Hc E.
  assert (B : before ":" (part0 ++ ":"%char :: part1) = part0).
  { rewrite (before_app ":" part0 _ Hc). unfold before. simpl.
    apply app_nil_r. }
  destruct (format_time_cases part0) as [Ht | [Hm [h Ht]]];
    rewrite Ht in E; rewrite <- E in B.
  - rewrite before_app in B by now apply normalise_no_colon.
    apply (f_equal remove_spaces) in B.
    unfold remove_spaces at 1 in B. rewrite filter_app in B.
    fold (remove_spaces (normalise_time part0)) in B.
    rewrite normalise_no_space in B.
    apply (f_equal (@List.length ascii)) in B.
    rewrite length_app, <- (length_normalise part0) in B.
    unfold before in B. simpl in B.
    destruct (split1 ":" _) as [a b]. simpl in B. lia.
  - rewrite <- app_assoc in B.
    rewrite before_app in B by apply plain_no_colon, format_02d_plain.
    unfold before in B. simpl in B. rewrite app_nil_r in B.
    pose proof (plain_no_marker _ (normalise_plain _ (format_02d_plain h))) as K.
    rewrite B in K. congruence.
Qed.

Lemma classify_time_block (line : str) :
  classify line = TimeBlock -> contains ":" line = true.
Proof.
  unfold classify.
  destruct (_ || skip_rule line)%bool; [discriminate|].
  destruct (contains "QUARTER" _); [discriminate|].
  destruct (_ && _)%bool; [discriminate|].
  destruct (existsb _ days); [discriminate|].
  destruct (contains ":" line); [reflexivity|].
  destruct (negb _); discriminate.
Qed.

(** C1 (amended): a line with a colon that reaches the time-block path is
    never passed through, and its processing never raises: it is emitted
    re-rendered as [<time> - <task> (<Priority>)], the time normalised, the
    task without its bracketed annotations, and the priority that of the
    hour the time starts with, or of hour 9 when the time is not an integer
    (so "garbage::::" comes out as "GARBAGE - ::: (High)"). *)
Theorem time_block_line_spec slots (st : fmt_state) (raw : str) :
  let line := strip raw in
  classify line = TimeBlock ->
  exists part0 part1 : str,
    line = part0 ++ ":"%char :: part1 /\ ~ In ":"%char part0 /\
    let time_str := _format_time part0 in
    let hour := match py_int (before ":" time_str) with
                | Ok h => h
                | Raise _ => 9
                end in
    let rendered :=
      time_str ++ of_string " - " ++ strip (re_sub_annotations part1) ++
      of_string " (" ++ capitalize (priority_str (_get_priority hour slots)) ++
      of_string ")" in
    process_time_block_body slots line = Ok rendered /\
    rendered <> line /\
    format_line slots st raw = (fst st ++ [rendered], snd st).
Proof.
  intros line Hc.
  pose proof (classify_time_block line Hc) as Hcolon.
  pose proof (split1_spec ":" line) as Hs.
  destruct (split1 ":" line) as [part0 [part1|]] eqn:Es.
  - destruct Hs as [Hl H0]. exists part0, part1.
    split; [exact Hl|]. split; [exact H0|]. cbv zeta.
    assert (Hb : process_time_block_body slots line =
                 Ok (_format_time part0 ++ of_string " - " ++
                     strip (re_sub_annotations part1) ++ of_string " (" ++
                     capitalize
                       (priority_str
                          (_get_priority
                             match py_int (before ":" (_format_time part0)) with
                             | Ok h => h
                             | Raise _ => 9
                             end slots)) ++ of_string ")")).
    { unfold process_time_block_body. rewrite Es. unfold try_except.
      reflexivity. }
    split; [exact Hb|].
    assert (Hd := rendered_differs part0 part1
                    (strip (re_sub_annotations part1))
                    (capitalize
                       (priority_str
                          (_get_priority
                             match py_int (before ":" (_format_time part0)) with
                             | Ok h => h
                             | Raise _ => 9
                             end slots))) H0).
    rewrite <- Hl in Hd. split; [exact Hd|].
    unfold format_line. destruct st as [ls cs]. fold line. rewrite Hc.
    unfold process_time_block. rewrite Hb. unfold try_except.
    apply eqb_false_iff in Hd. now rewrite Hd.
  - exfalso. destruct Hs as [_ Hs]. apply Hs.
    now apply contains_char_iff.
Qed.

Lemma time_block_line_spec_witness :
  format_line [(15, (5 # 10)%Q)] ([], None) " 3pm: Review [notes] " =
  ([of_string "15:00 - Review (Medium)"], None).
Proof.
  destruct (time_block_line_spec [(15, (5 # 10)%Q)] ([], None)
              " 3pm: Review [notes] " eq_refl)
    as (part0 & part1 & Hl & H0 & _ & _ & E).
  assert (B : before ":" (part0 ++ ":"%char :: part1) = part0).
  { rewrite (before_app ":" part0 _ H0). unfold before. simpl.
    apply app_nil_r. }
  rewrite <- Hl in B. vm_compute in B. subst part0.
  vm_compute in Hl. injection Hl as <-. exact E.
Defined.

(** C1, as stated, fails: "garbage::::" has a colon, is no header, and its
    time is no integer; the output holds its re-rendering and not the line
    itself. *)
Lemma time_block_counterexample :
  classify "garbage::::" = TimeBlock /\
  py_int (before ":" (_format_time (before ":" "garbage::::"))) =
    Raise (ValueError "invalid literal for int() with base 10") /\
  format_lines [] "garbage::::" = [of_string "GARBAGE - ::: (High)"] /\
  ~ In (of_string "garbage::::") (format_lines [] "garbage::::").
Proof.
  split; [reflexivity|]. split; [reflexivity|]. split; [reflexivity|].
  intros [H | []]. discriminate H.
Qed.

(* ------------------------------------------------------------------ *)
(** ** Feature extraction and the hours *)

Lemma Qnat_zero (n : nat) : Qeq_bool (Qnat n) 0 = true <-> n = O.
Proof.
  rewrite Qeq_bool_iff. unfold Qnat, Qeq. simpl. lia.
Qed.

Lemma features_dict_zero_tokens (goals : str) ah c :
  split_ws (lower goals) = [] ->
  features_dict goals ah c = Raise ZeroDivisionError.
Proof. intros H. unfold features_dict. rewrite H. reflexivity. Qed.

Lemma features_dict_tokens (goals : str) ah c :
  split_ws (lower goals) <> [] ->
  exists features, features_dict goals ah c = Ok features.
Proof.
  intros H. unfold features_dict.
  destruct (split_ws (lower goals)) as [|w ws]; [congruence|].
  unfold py_div at 1. change (Qeq_bool 10 0) with false. unfold bind at 1.
  unfold py_div at 1.
  destruct (Qeq_bool (Qnat (List.length (w :: ws))) 0) eqn:E.
  - apply Qnat_zero in E. discriminate E.
  - unfold bind at 1. unfold py_div.
    change (Qeq_bool (Qnat (List.length deadline_words)) 0) with false.
    unfold bind. eexists. reflexivity.
Qed.

Lemma extract_features_tokens self (goals : str) ah c :
  split_ws (lower goals) <> [] ->
  exists features, extract_features self goals ah c = Ok features.
Proof.
  intros H. destruct (features_dict_tokens goals ah c H) as [f E].
  unfold extract_features. rewrite E. unfold bind.
  destruct (scaler self); eexists; reflexivity.
Qed.

(** C4 (what the code does): for goal text without any token the division
    by the token count is not guarded, and feature extraction raises
    [ZeroDivisionError]; the slot generation raises with it, and
    [create_schedule], for non-empty texts, answers with the error text. *)
Theorem extract_features_zero_tokens float_repr self (d goals : str) ah
    (c : str) :
  split_ws (lower goals) = [] ->
  extract_features self goals ah c = Raise ZeroDivisionError /\
  generate_dynamic_schedule self d goals ah c = Raise ZeroDivisionError /\
  (d <> [] -> goals <> [] -> c <> [] ->
   create_schedule float_repr self d goals ah c =
   of_string "Error: division by zero").
Proof.
  intros H.
  assert (E : extract_features self goals ah c = Raise ZeroDivisionError).
  { unfold extract_features.
    now rewrite (features_dict_zero_tokens goals ah c H). }
  assert (G : generate_dynamic_schedule self d goals ah c =
              Raise ZeroDivisionError).
  { unfold generate_dynamic_schedule. now rewrite E. }
  split; [exact E|]. split; [exact G|].
  intros Hd Hg Hc. unfold create_schedule, generate_schedule.
  destruct d; [congruence|]. destruct goals; [congruence|].
  destruct c; [congruence|]. rewrite G. reflexivity.
Qed.

Lemma extract_features_zero_tokens_witness :
  create_schedule (fun _ => of_string "8.0") rule_based_scheduler "1 week" "   "
                  8 "mornings" = of_string "Error: division by zero".
Proof.
  destruct (extract_features_zero_tokens (fun _ => of_string "8.0")
              rule_based_scheduler "1 week" "   " 8 "mornings" eq_refl)
    as (_ & _ & H).
  apply H; discriminate.
Defined.

Lemma int_of_float_small (ah : Q) :
  (-1 < ah)%Q -> (ah <= 0)%Q -> int_of_float ah = 0.
Proof.
  destruct ah as [n dn]. unfold Qlt, Qle, int_of_float. simpl. intros H1 H2.
  rewrite <- (Z.opp_involutive n), Z.quot_opp_l by lia.
  rewrite Z.quot_small by lia. reflexivity.
Qed.

Lemma generate_zero_hours self d (g : str) ah c :
  split_ws (lower g) <> [] -> hours_needed ah = 0 ->
  generate_dynamic_schedule self d g ah c = Ok [].
Proof.
  intros Hw Hn. destruct (extract_features_tokens self g ah c Hw) as [f E].
  unfold generate_dynamic_schedule. rewrite E. unfold bind. rewrite Hn.
  destruct (predict_optimal_slots self f); reflexivity.
Qed.

(** C7 (amended): the core has no check of the hours.  For hours above -1
    and up to 0, whose whole part is 0, nothing is rejected: the scorer
    returns no slots and, when the draft arrives, [create_schedule] returns
    the formatted schedule.  For hours of -1 and below an error comes up
    only where the rule-based path allocates its scores; the classifier
    path returns slots for any hours. *)
Theorem nonpositive_hours_not_rejected float_repr self (d g : str) ah
    (c : str) :
  (ah <= 0)%Q ->
  split_ws (lower g) <> [] ->
  ((-1 < ah)%Q ->
   hours_needed ah = 0 /\
   generate_dynamic_schedule self d g ah c = Ok [] /\
   forall prompt text : str,
     d <> [] -> c <> [] ->
     prompt_method self (lower d) g [] c = Ok prompt ->
     generate_content self prompt = Ok text ->
     create_schedule float_repr self d g ah c =
     _format_output [] (float_repr ah) text d g c) /\
  ((ah <= -1)%Q -> fallback_path self g ah c ->
   generate_dynamic_schedule self d g ah c =
   Raise (ValueError "negative dimensions are not allowed")) /\
  (forall os, classifier_path self g ah c os ->
              exists slots, generate_dynamic_schedule self d g ah c = Ok slots).
Proof.
  intros H0 Hw. split; [| split];
    [| | intros os Hp; eexists; apply (generate_classifier _ _ _ _ _ _ Hp)].
  - intros H1.
    assert (Hn : hours_needed ah = 0).
    { unfold hours_needed. now rewrite int_of_float_small. }
    pose proof (generate_zero_hours self d g ah c Hw Hn) as G.
    split; [exact Hn|]. split; [exact G|].
    intros prompt text Hd Hc Hp Ht.
    unfold create_schedule, generate_schedule.
    destruct d as [|d0 d']; [congruence|].
    destruct g as [|g0 g']; [exfalso; now apply Hw|].
    destruct c as [|c0 c']; [congruence|].
    rewrite G. unfold bind at 1. rewrite Hp. unfold bind at 1. rewrite Ht.
    reflexivity.
  - intros H1 Hf. rewrite (generate_fallback _ _ _ _ _ Hf).
    assert (Hn : hours_needed ah < 0).
    { unfold hours_needed, int_of_float. destruct ah as [n dn].
      unfold Qle in H1. simpl in *.
      assert (Z.quot n (Z.pos dn) <= -1); [| lia].
      rewrite <- (Z.opp_involutive n), Z.quot_opp_l by lia.
      assert (1 <= Z.quot (- n) (Z.pos dn)); [| lia].
      apply Z.quot_le_lower_bound; lia. }
    unfold fallback_slots, np_full.
    destruct (Z.ltb_spec (hours_needed ah) 0); [reflexivity | lia].
Qed.

Lemma nonpositive_hours_not_rejected_witness :
  create_schedule (fun _ => of_string "-0.5") rule_based_scheduler "1 week"
                  "design" (- (1 # 2)) "evening" =
  _format_output [] "-0.5" "9am: work" "1 week" "design" "evening" /\
  generate_dynamic_schedule rule_based_scheduler "1 week" "design" (-3)
                            "evening" =
  Raise (ValueError "negative dimensions are not allowed").
Proof.
  split.
  - destruct (nonpositive_hours_not_rejected (fun _ => of_string "-0.5")
                rule_based_scheduler "1 week" "design" (- (1 # 2))%Q "evening")
      as (H & _ & _); [discriminate | discriminate |].
    destruct (H eq_refl) as (_ & _ & K).
    apply (K "design"); [discriminate | discriminate | reflexivity
                         | reflexivity].
  - destruct (nonpositive_hours_not_rejected (fun _ => of_string "-3.0")
                rule_based_scheduler "1 week" "design" (-3)%Q "evening")
      as (_ & H & _); [discriminate | discriminate |].
    apply H; [discriminate|].
    apply rule_based_fallback. discriminate.
Defined.

(** C7, as stated, fails: with zero hours nothing is rejected, the slot
    list is empty and the formatted schedule is returned. *)
Lemma zero_hours_counterexample :
  generate_dynamic_schedule rule_based_scheduler "1 week" "design" 0
                            "evening" = Ok [] /\
  create_schedule (fun _ => of_string "0.0") rule_based_scheduler "1 week"
                  "design" 0 "evening" =
  _format_output [] "0.0" "9am: work" "1 week" "design" "evening" /\
  startswith "Schedule Overview"
    (create_schedule (fun _ => of_string "0.0") rule_based_scheduler "1 week"
                     "design" 0 "evening") = true /\
  contains "Error"
    (create_schedule (fun _ => of_string "0.0") rule_based_scheduler "1 week"
                     "design" 0 "evening") = false.
Proof. repeat split. Qed.

(* ------------------------------------------------------------------ *)
(** ** The classifier path *)

Lemma clip01_range (p : Q) : (0 <= clip01 p /\ clip01 p <= 1)%Q.
Proof.
  unfold clip01, Qmin, Qmax.
  destruct (Qle_bool p 0) eqn:E0.
  - change (Qle_bool 0 1) with true. cbv iota.
    split; [apply Qle_refl | discriminate].
  - assert (H0 : (0 < p)%Q).
    { apply Qnot_le_lt. rewrite <- Qle_bool_iff. congruence. }
    destruct (Qle_bool p 1) eqn:E1.
    + apply Qle_bool_iff in E1. split; [now apply Qlt_le_weak | exact E1].
    + split; [discriminate | apply Qle_refl].
Qed.

Lemma in_insert_desc (s x : slot) (l : list slot) :
  In s (insert_desc x l) <-> s = x \/ In s l.
Proof.
  induction l as [|y l IH]; simpl.
  - intuition.
  - destruct (Qlt_le_dec (snd x) (snd y)); simpl; [rewrite IH|]; intuition.
Qed.

Lemma in_sorted_desc (s : slot) (l : list slot) :
  In s (sorted_desc l) <-> In s l.
Proof.
  induction l as [|x l IH]; simpl; [tauto|].
  rewrite in_insert_desc, IH. intuition.
Qed.

Lemma predict_body_range pp features os :
  predict_body pp features = Ok (Some os) ->
  forall h p, In (h, p) os -> (0 <= p /\ p <= 1)%Q /\ 5 <= h <= 22.
Proof.
  unfold predict_body, bind.
  destruct (pp features) as [predictions|e]; [| discriminate].
  destruct predictions as [|row0 rows]; [discriminate|].
  destruct (bool_index _ _) as [picked|e]; [| discriminate].
  remember (pick (map (in_band 5 22) (arange 24)) (arange 24)) as vh eqn:Evh.
  intros H h p Hin. injection H as <-.
  apply (proj1 (in_sorted_desc _ _)) in Hin.
  split.
  - apply in_combine_r in Hin. apply in_map_iff in Hin as [[h' p'] [<- _]].
    apply clip01_range.
  - apply in_combine_l in Hin. rewrite Evh in Hin. vm_compute in Hin.
    repeat (destruct Hin as [<- | Hin]; [lia|]). destruct Hin.
Qed.

Lemma predict_slots_range self features os :
  predict_optimal_slots self features = Some os ->
  forall h p, In (h, p) os -> (0 <= p /\ p <= 1)%Q /\ 5 <= h <= 22.
Proof.
  unfold predict_optimal_slots. destruct (rf_model self) as [pp|];
    [| discriminate].
  destruct (predict_body pp features) as [[os'|]|e] eqn:E; simpl;
    try discriminate.
  intros H. injection H as <-. now apply (predict_body_range pp features).
Qed.

(** The classifier path is taken only for predictions of 24 entries: one
    row per sample, for the single sample the features hold, leads to the
    fallback. *)
Lemma predict_needs_24 self pp features predictions os :
  rf_model self = Some pp -> pp features = Ok predictions ->
  predict_optimal_slots self features = Some os ->
  (List.length predictions = 24 \/
   List.length (List.concat predictions) = 24)%nat.
Proof.
  intros Hm Hp. unfold predict_optimal_slots, predict_body.
  rewrite Hm, Hp. unfold bind, try_except.
  destruct predictions as [|row0 rows]; [discriminate|].
  unfold bool_index.
  destruct (1 <? List.length row0)%nat.
  - rewrite !length_map. unfold arange. rewrite length_map, length_seq.
    destruct (Nat.eqb_spec (Z.to_nat 24) (List.length (row0 :: rows)));
      [| discriminate].
    intros _. left. rewrite <- e. reflexivity.
  - rewrite !length_map. unfold arange. rewrite length_map, length_seq.
    destruct (Nat.eqb_spec (Z.to_nat 24)
                (List.length (List.concat (row0 :: rows))));
      [| discriminate].
    intros _. right. rewrite <- e. reflexivity.
Qed.











(* ------------------------------------------------------------------ *)
(** ** The order of the classifier's slots *)

Lemma sorted_desc_perm (l : list slot) : Permutation (sorted_desc l) l.
Proof.
  induction l as [|x l IH]; simpl; [constructor|].
  transitivity (x :: sorted_desc l); [| now constructor].
  clear IH. induction (sorted_desc l) as [|y r IHr]; simpl; [reflexivity|].
  destruct (Qlt_le_dec (snd x) (snd y)); [| reflexivity].
  transitivity (y :: x :: r); [now constructor | constructor].
Qed.

Lemma insert_desc_sorted (x : slot) (l : list slot) :
  StronglySorted slot_before l ->
  (forall y, In y l -> fst x < fst y) ->
  StronglySorted slot_before (insert_desc x l).
Proof.
  induction l as [|y r IH]; simpl; intros Hs Hx.
  - repeat constructor.
  - apply StronglySorted_inv in Hs as [Hr Hy].
    destruct (Qlt_le_dec (snd x) (snd y)) as [Hlt|Hle].
    + constructor.
      * apply IH; [exact Hr | intros z Hz; apply Hx; now right].
      * apply Forall_forall. intros z Hz. apply in_insert_desc in Hz.
        destruct Hz as [-> | Hz]; [now left|].
        rewrite Forall_forall in Hy. now apply Hy.
    + constructor; [now constructor|].
      apply Forall_forall. intros z Hz.
      assert (Hzx : (snd z <= snd x)%Q).
      { destruct Hz as [<- | Hz]; [exact Hle|].
        rewrite Forall_forall in Hy. destruct (Hy z Hz) as [H | [H _]].
        - apply Qlt_le_weak. now apply Qlt_le_trans with (snd y).
        - now rewrite <- H. }
      destruct (Qlt_le_dec (snd z) (snd x)) as [H|H]; [now left|].
      right. split; [now apply Qle_antisym | now apply Hx].
Qed.

Lemma sorted_desc_sorted (l : list slot) :
  StronglySorted Z.lt (map fst l) -> StronglySorted slot_before (sorted_desc l).
Proof.
  induction l as [|x l IH]; simpl; intros H; [constructor|].
  apply StronglySorted_inv in H as [Hl Hx].
  apply insert_desc_sorted; [now apply IH|].
  intros y Hy. apply (proj1 (in_sorted_desc _ _)) in Hy.
  rewrite Forall_forall in Hx. apply Hx. now apply in_map.
Qed.

Lemma length_pick {A} (mask : list bool) (xs : list A) :
  List.length mask = List.length xs ->
  List.length (pick mask xs) = List.length (filter (fun b => b) mask).
Proof.
  revert xs. induction mask as [|b mask IH]; intros [|x xs] H; simpl in *;
    try discriminate; [reflexivity|].
  injection H as H. destruct b; simpl; now rewrite IH.
Qed.

Lemma map_fst_combine {A B} (l : list A) (l' : list B) :
  List.length l = List.length l' -> map fst (combine l l') = l.
Proof.
  revert l'. induction l as [|a l IH]; intros [|b l'] H; simpl in *;
    try discriminate; [reflexivity|].
  injection H as H. now rewrite IH.
Qed.

(** What a successful prediction returns, with the hours kept abstract. *)
Lemma predict_body_shape pp features os :
  predict_body pp features = Ok (Some os) ->
  exists probs : list Q,
    List.length probs = 18%nat /\
    os = sorted_desc (combine scored_hours probs).
Proof.
  unfold predict_body, bind.
  destruct (pp features) as [predictions|e]; [| discriminate].
  destruct predictions as [|row0 rows]; [discriminate|].
  unfold bool_index.
  set (probs0 := if (1 <? List.length row0)%nat then _ else _).
  destruct (Nat.eqb_spec (List.length (map (in_band 5 22) (arange 24)))
                         (List.length probs0)) as [E|_]; [| discriminate].
  pose proof (length_pick _ probs0 E) as L.
  change (List.length (filter _ _)) with 18%nat in L.
  revert L. generalize (pick (map (in_band 5 22) (arange 24)) probs0).
  intros picked L.
  remember (pick (map (in_band 5 22) (arange 24)) (arange 24)) as vh eqn:Evh.
  intros H. injection H as <-.
  exists (map (fun '(h, p) => clip01 (p * adjustment h)%Q) (combine vh picked)).
  split.
  - rewrite length_map, length_combine, L, Evh. reflexivity.
  - rewrite Evh. reflexivity.
Qed.

Lemma predict_slots_shape self features os :
  predict_optimal_slots self features = Some os ->
  exists probs : list Q,
    List.length probs = 18%nat /\
    os = sorted_desc (combine scored_hours probs).
Proof.
  unfold predict_optimal_slots. destruct (rf_model self) as [pp|];
    [| discriminate].
  destruct (predict_body pp features) as [[os'|]|e] eqn:E; simpl;
    try discriminate.
  intros H. injection H as <-. now apply (predict_body_shape pp features).
Qed.

Lemma predict_slots_hours self features os :
  predict_optimal_slots self features = Some os ->
  Permutation (map fst os) scored_hours.
Proof.
  intros H. destruct (predict_slots_shape _ _ _ H) as [probs [L ->]].
  rewrite (Permutation_map fst (sorted_desc_perm _)).
  now rewrite map_fst_combine.
Qed.

(** X1: the slots of a successful prediction are the eighteen hours 5..22,
    each once, in the order of a stable descending sort: a higher score
    comes first, and among equal scores the earlier hour. *)
Theorem predicted_slots_sorted self features os :
  predict_optimal_slots self features = Some os ->
  Permutation (map fst os) scored_hours /\
  List.length os = 18%nat /\
  StronglySorted slot_before os.
Proof.
  intros H. pose proof (predict_slots_hours _ _ _ H) as P.
  split; [exact P|]. split.
  - apply Permutation_length in P. now rewrite length_map in P.
  - destruct (predict_slots_shape _ _ _ H) as [probs [L ->]].
    apply sorted_desc_sorted. rewrite map_fst_combine by now rewrite L.
    unfold scored_hours.
    repeat (constructor; [| repeat (constructor; [lia|]); constructor]).
    constructor.
Qed.

Lemma predicted_slots_sorted_witness :
  StronglySorted slot_before
    [(9, (12 # 20)%Q); (10, (12 # 20)%Q); (11, (12 # 20)%Q);
     (14, (11 # 20)%Q); (15, (11 # 20)%Q); (16, (11 # 20)%Q);
     (7, (1 # 2)%Q); (8, (1 # 2)%Q); (12, (1 # 2)%Q); (13, (1 # 2)%Q);
     (17, (1 # 2)%Q); (18, (1 # 2)%Q); (19, (1 # 2)%Q); (20, (1 # 2)%Q);
     (5, (8 # 20)%Q); (6, (8 # 20)%Q); (21, (8 # 20)%Q); (22, (8 # 20)%Q)].
Proof.
  apply (predicted_slots_sorted even_classifier_scheduler []). reflexivity.
Defined.

(** X2: the prediction gives no slots, and so hands over to the rule-based
    path, when no classifier is loaded, when the classifier raises, when it
    returns no row, and when it returns a single row, whatever its width:
    the mask over the 24 hours needs 24 probabilities. *)
Theorem prediction_falls_back self features :
  (rf_model self = None -> predict_optimal_slots self features = None) /\
  (forall pp e, rf_model self = Some pp -> pp features = Raise e ->
                predict_optimal_slots self features = None) /\
  (forall pp, rf_model self = Some pp -> pp features = Ok [] ->
              predict_optimal_slots self features = None) /\
  (forall pp row, rf_model self = Some pp -> pp features = Ok [row] ->
                  predict_optimal_slots self features = None).
Proof.
  unfold predict_optimal_slots, predict_body.
  split; [intros ->; reflexivity|].
  split; [intros pp e -> ->; reflexivity|].
  split; [intros pp -> ->; reflexivity|].
  intros pp row -> ->. unfold bind, bool_index.
  destruct (Nat.ltb_spec 1 (List.length row)) as [H|H].
  - reflexivity.
  - simpl List.concat. rewrite app_nil_r.
    destruct (Nat.eqb_spec
                (List.length (map (in_band 5 22) (arange 24)))
                (List.length row)) as [E|_]; [| reflexivity].
    exfalso. rewrite length_map, length_arange in E.
    change (Z.to_nat 24) with 24%nat in E. lia.
Qed.

Lemma prediction_falls_back_witness :
  predict_optimal_slots row_classifier_scheduler [[8; 16; 22]%Q] = None.
Proof.
  destruct (prediction_falls_back row_classifier_scheduler [[8; 16; 22]%Q])
    as (_ & _ & _ & H).
  apply (H _ [(3 # 10)%Q; (7 # 10)%Q] eq_refl eq_refl).
Defined.

(* ------------------------------------------------------------------ *)
(** ** Feature extraction *)

(** X3: feature extraction raises only for goal text without a token, and
    then [ZeroDivisionError]; otherwise it returns the one row of the
    features, aligned to the feature names when there are any, and a scaler
    that fails leaves that row unscaled. *)
Theorem extract_features_outcome self (goals : str) ah (c : str) :
  (forall e, extract_features self goals ah c = Raise e ->
             e = ZeroDivisionError /\ split_ws (lower goals) = []) /\
  (split_ws (lower goals) <> [] ->
   exists fd,
     features_dict goals ah c = Ok fd /\
     let aligned :=
       map snd match feature_names self with
               | Some names => reindex names fd
               | None => fd
               end in
     (scaler self = None ->
      extract_features self goals ah c = Ok [aligned]) /\
     (forall transform e,
         scaler self = Some transform -> transform [aligned] = Raise e ->
         extract_features self goals ah c = Ok [aligned]) /\
     (forall transform m,
         scaler self = Some transform -> transform [aligned] = Ok m ->
         extract_features self goals ah c = Ok m)).
Proof.
  split.
  - intros e H.
    destruct (split_ws (lower goals)) as [|w ws] eqn:Ew.
    + split; [| reflexivity]. unfold extract_features in H.
      rewrite (features_dict_zero_tokens goals ah c Ew) in H.
      simpl in H. congruence.
    + exfalso.
      destruct (extract_features_tokens self goals ah c) as [f E];
        [rewrite Ew; discriminate | congruence].
  - intros Hw. destruct (features_dict_tokens goals ah c Hw) as [fd E].
    exists fd. split; [exact E|]. cbv zeta.
    unfold extract_features. rewrite E. unfold bind.
    split; [intros ->; reflexivity|].
    split; intros transform x -> Hx; now rewrite Hx.
Qed.

Lemma extract_features_outcome_witness :
  extract_features failing_scaler_scheduler "design a flow" 8
                   "two meetings" = Ok [[8; 0; 1]%Q].
Proof.
  destruct (extract_features_outcome failing_scaler_scheduler "design a flow"
              8 "two meetings") as [_ H].
  destruct H as (fd & E & _ & H & _); [discriminate|].
  vm_compute in E. injection E as <-.
  apply (H _ (ValueError "feature count mismatch") eq_refl eq_refl).
Defined.

Lemma distinct_nonempty (l : list str) : l <> [] -> distinct l <> [].
Proof.
  induction l as [|x l IH]; [congruence|]. intros _. simpl.
  destruct (mem x l) eqn:E; [| discriminate].
  apply IH. intros ->. discriminate E.
Qed.

Lemma length_distinct (l : list str) :
  (List.length (distinct l) <= List.length l)%nat.
Proof.
  induction l as [|x l IH]; simpl; [lia|].
  destruct (mem x l); simpl; lia.
Qed.

Lemma Qnat_ratio (a b : nat) :
  (0 < a)%nat -> (a <= b)%nat ->
  (0 < Qnat a / Qnat b /\ Qnat a / Qnat b <= 1)%Q.
Proof.
  intros Ha Hab.
  assert (Hb : (0 < Qnat b)%Q) by (unfold Qnat, Qlt; simpl; lia).
  split.
  - apply Qlt_shift_div_l; [exact Hb|]. rewrite Qmult_0_l.
    unfold Qnat, Qlt. simpl. lia.
  - apply Qle_shift_div_r; [exact Hb|]. rewrite Qmult_1_l. unfold Qnat.
    rewrite <- Zle_Qle. lia.
Qed.

Lemma Qnat_ratio0 (a b : nat) :
  (0 < b)%nat -> (a <= b)%nat ->
  (0 <= Qnat a / Qnat b /\ Qnat a / Qnat b <= 1)%Q.
Proof.
  intros Hb Hab.
  assert (Hq : (0 < Qnat b)%Q) by (unfold Qnat, Qlt; simpl; lia).
  split.
  - apply Qle_shift_div_l; [exact Hq|]. rewrite Qmult_0_l.
    unfold Qnat, Qle. simpl. lia.
  - apply Qle_shift_div_r; [exact Hq|]. rewrite Qmult_1_l. unfold Qnat.
    rewrite <- Zle_Qle. lia.
Qed.

Lemma Qbool_cases (b : bool) : Qbool b = 0%Q \/ Qbool b = 1%Q.
Proof. destruct b; [now right | now left]. Qed.

Lemma length_hits (words : list str) (text : str) :
  (hits words text <= List.length words)%nat.
Proof. unfold hits. apply filter_length_le. Qed.

(** The dictionary of a successful extraction, entry by entry. *)
Lemma features_dict_entries (goals : str) ah (c : str) fd :
  features_dict goals ah c = Ok fd ->
  exists words,
    words = split_ws (lower goals) /\ words <> [] /\
    fd =
    [(of_string "available_hours", ah);
     (of_string "start_hour", Qmax 6 (24 - ah));
     (of_string "end_hour", Qmin 22 (Qmax 6 (24 - ah) + ah));
     (of_string "duration_blocks", (ah / 2)%Q)] ++
    [(of_string "task_complexity", (Qnat (List.length words) / 10)%Q);
     (of_string "task_diversity",
      (Qnat (List.length (distinct words)) / Qnat (List.length words))%Q)] ++
    map (fun '(feature_name, keywords) =>
           (feature_name,
            Qbool (existsb (fun kw => (mem kw (distinct words) ||
                                       contains kw (lower c))%bool)
                           keywords)))
        keyword_categories ++
    [(of_string "urgency_score",
      (Qnat (hits deadline_words (lower c)) /
       Qnat (List.length deadline_words))%Q);
     (of_string "has_meetings", Qbool (contains "meeting" (lower c)));
     (of_string "has_breaks", Qbool (contains "break" (lower c)));
     (of_string "meeting_frequency", Qnat (count "meeting" (lower c)))].
Proof.
  unfold features_dict. intros H. exists (split_ws (lower goals)).
  split; [reflexivity|].
  destruct (split_ws (lower goals)) as [|w ws]; [discriminate H|].
  split; [discriminate|].
  unfold py_div at 1 in H. change (Qeq_bool 10 0) with false in H.
  unfold bind at 1 in H. unfold py_div at 1 in H.
  destruct (Qeq_bool (Qnat (List.length (w :: ws))) 0) eqn:E.
  - apply Qnat_zero in E. discriminate E.
  - unfold bind at 1 in H. unfold py_div in H.
    change (Qeq_bool (Qnat (List.length deadline_words)) 0) with false in H.
    unfold bind in H. now injection H as <-.
Qed.

(** X4: a successful extraction yields the nineteen features in one fixed
    order, whatever the texts; each flag is 0 or 1, the diversity lies in
    (0,1], the urgency in [0,1], the start hour is at least 6 and the end
    hour at most 22. *)
Theorem features_invariants (goals : str) ah (c : str) fd :
  features_dict goals ah c = Ok fd ->
  map fst fd = feature_order /\
  (forall name v, In (name, v) fd -> In name flag_names ->
                  v = 0%Q \/ v = 1%Q) /\
  (forall v, In (of_string "task_diversity", v) fd -> (0 < v /\ v <= 1)%Q) /\
  (forall v, In (of_string "urgency_score", v) fd -> (0 <= v /\ v <= 1)%Q) /\
  (forall v, In (of_string "start_hour", v) fd -> (6 <= v)%Q) /\
  (forall v, In (of_string "end_hour", v) fd -> (v <= 22)%Q).
Proof.
  intros H. destruct (features_dict_entries _ _ _ _ H) as (words & _ & Hw & ->).
  assert (Hcat : forall (name : str) v (P : Prop),
             In (name, v)
                (map (fun '(feature_name, keywords) =>
                        (feature_name,
                         Qbool (existsb
                                  (fun kw => (mem kw (distinct words) ||
                                              contains kw (lower c))%bool)
                                  keywords)))
                     keyword_categories) ->
             ~ In name (map fst keyword_categories) -> P).
  { intros name v P Hin Hn. exfalso. apply Hn.
    apply in_map_iff in Hin as [[n k] [E Hin]]. injection E as <- _.
    apply (in_map fst) in Hin. exact Hin. }
  assert (Hnot : forall name : str,
             In name (map of_string
                        ["task_diversity"; "urgency_score"; "start_hour";
                         "end_hour"]) ->
             ~ In name (map fst keyword_categories)).
  { intros name Hn K. simpl in Hn, K.
    repeat (destruct Hn as [<- | Hn];
            [repeat (destruct K as [K|K]; [discriminate K|]); exact K|]).
    exact Hn. }
  split; [reflexivity|].
  split; [| split; [| split; [| split]]].
  - intros name v Hin Hflag.
    apply in_app_or in Hin as [Hin|Hin];
      [| apply in_app_or in Hin as [Hin|Hin];
         [| apply in_app_or in Hin as [Hin|Hin]]].
    + exfalso. simpl in Hin, Hflag.
      repeat (destruct Hin as [Hin|Hin];
              [injection Hin as <- _;
               repeat (destruct Hflag as [K|Hflag]; [discriminate K|]);
               exact Hflag|]).
      exact Hin.
    + exfalso. simpl in Hin, Hflag.
      repeat (destruct Hin as [Hin|Hin];
              [injection Hin as <- _;
               repeat (destruct Hflag as [K|Hflag]; [discriminate K|]);
               exact Hflag|]).
      exact Hin.
    + apply in_map_iff in Hin as [[n k] [E _]]. injection E as _ <-.
      apply Qbool_cases.
    + simpl in Hin.
      destruct Hin as [Hin | [Hin | [Hin | [Hin | []]]]].
      * exfalso. injection Hin as <- _. simpl in Hflag.
        repeat (destruct Hflag as [K|Hflag]; [discriminate K|]).
        exact Hflag.
      * injection Hin as _ <-. apply Qbool_cases.
      * injection Hin as _ <-. apply Qbool_cases.
      * exfalso. injection Hin as <- _. simpl in Hflag.
        repeat (destruct Hflag as [K|Hflag]; [discriminate K|]).
        exact Hflag.
  - intros v Hin.
    apply in_app_or in Hin as [Hin|Hin];
      [| apply in_app_or in Hin as [Hin|Hin];
         [| apply in_app_or in Hin as [Hin|Hin]]].
    + simpl in Hin. repeat (destruct Hin as [Hin|Hin]; [discriminate Hin|]).
      destruct Hin.
    + simpl in Hin. destruct Hin as [Hin | [Hin | []]]; [discriminate Hin|].
      injection Hin as <-. apply Qnat_ratio; [| apply length_distinct].
      pose proof (distinct_nonempty words Hw).
      destruct (distinct words); [congruence | simpl; lia].
    + apply (Hcat _ _ _ Hin). apply Hnot. simpl. tauto.
    + simpl in Hin. repeat (destruct Hin as [Hin|Hin]; [discriminate Hin|]).
      destruct Hin.
  - intros v Hin.
    apply in_app_or in Hin as [Hin|Hin];
      [| apply in_app_or in Hin as [Hin|Hin];
         [| apply in_app_or in Hin as [Hin|Hin]]].
    + simpl in Hin. repeat (destruct Hin as [Hin|Hin]; [discriminate Hin|]).
      destruct Hin.
    + simpl in Hin. repeat (destruct Hin as [Hin|Hin]; [discriminate Hin|]).
      destruct Hin.
    + apply (Hcat _ _ _ Hin). apply Hnot. simpl. tauto.
    + simpl in Hin. destruct Hin as [Hin | Hin].
      * injection Hin as <-. apply Qnat_ratio0; [simpl; lia|].
        apply length_hits.
      * repeat (destruct Hin as [Hin|Hin]; [discriminate Hin|]). destruct Hin.
  - intros v Hin.
    apply in_app_or in Hin as [Hin|Hin];
      [| apply in_app_or in Hin as [Hin|Hin];
         [| apply in_app_or in Hin as [Hin|Hin]]].
    + simpl in Hin.
      destruct Hin as [Hin | [Hin | Hin]]; [discriminate Hin | |].
      * injection Hin as <-. unfold Qmax.
        destruct (Qle_bool 6 (24 - ah)) eqn:E;
          [now apply Qle_bool_iff | apply Qle_refl].
      * repeat (destruct Hin as [Hin|Hin]; [discriminate Hin|]). destruct Hin.
    + simpl in Hin. repeat (destruct Hin as [Hin|Hin]; [discriminate Hin|]).
      destruct Hin.
    + apply (Hcat _ _ _ Hin). apply Hnot. simpl. tauto.
    + simpl in Hin. repeat (destruct Hin as [Hin|Hin]; [discriminate Hin|]).
      destruct Hin.
  - intros v Hin.
    apply in_app_or in Hin as [Hin|Hin];
      [| apply in_app_or in Hin as [Hin|Hin];
         [| apply in_app_or in Hin as [Hin|Hin]]].
    + simpl in Hin.
      destruct Hin as [Hin | [Hin | [Hin | Hin]]];
        [discriminate Hin | discriminate Hin | |].
      * injection Hin as <-. unfold Qmin.
        destruct (Qle_bool 22 _) eqn:E; [apply Qle_refl|].
        apply Qlt_le_weak, Qnot_le_lt. rewrite <- Qle_bool_iff. congruence.
      * repeat (destruct Hin as [Hin|Hin]; [discriminate Hin|]). destruct Hin.
    + simpl in Hin. repeat (destruct Hin as [Hin|Hin]; [discriminate Hin|]).
      destruct Hin.
    + apply (Hcat _ _ _ Hin). apply Hnot. simpl. tauto.
    + simpl in Hin. repeat (destruct Hin as [Hin|Hin]; [discriminate Hin|]).
      destruct Hin.
Qed.

Lemma features_invariants_witness :
  exists fd,
    features_dict "design a new onboarding flow" 8
                  "morning meetings, avoid evenings" = Ok fd /\
    map fst fd = feature_order /\
    In (of_string "is_creative", 1%Q) fd.
Proof.
  eexists. split; [reflexivity|]. split.
  - apply (features_invariants "design a new onboarding flow" 8
             "morning meetings, avoid evenings"). reflexivity.
  - do 6 right. left. reflexivity.
Defined.

(* ------------------------------------------------------------------ *)
(** ** Alignment to the feature names *)

Lemma lookup_reindex_in (names : list str) (d : list (str * Q)) (n : str) :
  In n names ->
  lookup n (reindex names d) =
  Some match lookup n d with Some v => v | None => 0%Q end.
Proof.
  unfold reindex. induction names as [|m names IH]; simpl; [intros []|].
  intros H. destruct (eqb m n) eqn:E.
  - apply eqb_iff in E. now subst.
  - destruct H as [-> | H]; [| now apply IH].
    exfalso. apply eqb_false_iff in E. congruence.
Qed.

Lemma lookup_reindex_out (names : list str) (d : list (str * Q)) (n : str) :
  ~ In n names -> lookup n (reindex names d) = None.
Proof.
  unfold reindex. induction names as [|m names IH]; simpl; [reflexivity|].
  intros H. destruct (eqb m n) eqn:E.
  - apply eqb_iff in E. tauto.
  - apply IH. tauto.
Qed.

(** X5: aligning the features to a list of names gives exactly those names,
    in their order; a name the extractor computed keeps its value, any
    other gets 0, and names outside the list are gone; aligning the result
    to the same names again changes nothing. *)
Theorem reindex_aligns (names : list str) (d : list (str * Q)) :
  map fst (reindex names d) = names /\
  (forall n v, In n names -> lookup n d = Some v ->
               lookup n (reindex names d) = Some v) /\
  (forall n, In n names -> lookup n d = None ->
             lookup n (reindex names d) = Some 0%Q) /\
  (forall n, ~ In n names -> lookup n (reindex names d) = None) /\
  (NoDup names -> reindex names (reindex names d) = reindex names d).
Proof.
  split; [| split; [| split; [| split; [| intros _]]]].
  - unfold reindex. rewrite map_map. simpl. apply map_id.
  - intros n v Hn Hv. now rewrite lookup_reindex_in, Hv.
  - intros n Hn Hv. now rewrite lookup_reindex_in, Hv.
  - apply lookup_reindex_out.
  - unfold reindex at 1 3. apply map_ext_in. intros n Hn.
    now rewrite lookup_reindex_in.
Qed.

Lemma reindex_aligns_witness :
  lookup "b" (reindex (map of_string ["b"; "z"])
                      [(of_string "a", 1%Q); (of_string "b", 2%Q)]) =
  Some 2%Q.
Proof.
  destruct (reindex_aligns (map of_string ["b"; "z"])
              [(of_string "a", 1%Q); (of_string "b", 2%Q)]) as (_ & H & _).
  apply H; [now left | reflexivity].
Defined.

(* ------------------------------------------------------------------ *)
(** ** The preferred start hour *)

(** X6: the fallback starts at 9 when the considerations hold none of the
    time-of-day keywords, and otherwise at 8, 12 or 16 for the morning,
    afternoon or evening set with the most keywords present, the earlier
    set winning a tie. *)
Theorem preferred_start_spec (considerations_lower : str) :
  let m := hits (map of_string ["morning"; "early"; "am"])
                considerations_lower in
  let a := hits (map of_string ["afternoon"; "lunch"; "pm"])
                considerations_lower in
  let e := hits (map of_string ["evening"; "night"; "late"])
                considerations_lower in
  ((m = 0 /\ a = 0 /\ e = 0)%nat -> preferred_start considerations_lower = 9) /\
  ((0 < m /\ a <= m /\ e <= m)%nat ->
   preferred_start considerations_lower = 8) /\
  ((m < a /\ e <= a)%nat -> preferred_start considerations_lower = 12) /\
  ((m < e /\ a < e)%nat -> preferred_start considerations_lower = 16).
Proof.
  intros m a e. unfold preferred_start, time_preferences.
  cbn [fold_left]. fold m.
  destruct (Nat.ltb_spec 0 m) as [Hm|Hm]; cbv beta iota zeta; fold a.
  - destruct (Nat.ltb_spec m a) as [Ha|Ha]; cbv beta iota zeta; fold e.
    + destruct (Nat.ltb_spec a e); repeat split; intros; simpl; lia.
    + destruct (Nat.ltb_spec m e); repeat split; intros; simpl; lia.
  - destruct (Nat.ltb_spec 0 a) as [Ha|Ha]; cbv beta iota zeta; fold e.
    + destruct (Nat.ltb_spec a e); repeat split; intros; simpl; lia.
    + destruct (Nat.ltb_spec 0 e); repeat split; intros; simpl; lia.
Qed.

Lemma preferred_start_spec_witness :
  preferred_start "early lunch, then a late night" = 16.
Proof.
  destruct (preferred_start_spec "early lunch, then a late night")
    as (_ & _ & _ & H).
  apply H. vm_compute. lia.
Defined.

(* ------------------------------------------------------------------ *)
(** ** What every generated slot list satisfies *)

Lemma in_firstn {A} (n : nat) (l : list A) (x : A) :
  In x (firstn n l) -> In x l.
Proof.
  revert l. induction n as [|n IH]; intros [|a l]; simpl; try tauto.
  intros [H|H]; [now left | right; now apply IH].
Qed.

Lemma in_slice_to {A} (n : Z) (l : list A) (x : A) :
  In x (slice_to n l) -> In x l.
Proof. unfold slice_to. destruct (n <? 0); apply in_firstn. Qed.

Lemma NoDup_firstn {A} (n : nat) (l : list A) :
  NoDup l -> NoDup (firstn n l).
Proof.
  revert l. induction n as [|n IH]; intros [|a l] H; simpl; try constructor.
  - inversion H; subst. intros K. apply in_firstn in K. contradiction.
  - inversion H; subst. now apply IH.
Qed.

Lemma map_fst_slice_to (n : Z) (l : list slot) :
  map fst (slice_to n l) = slice_to n (map fst l).
Proof.
  unfold slice_to. rewrite length_map.
  destruct (n <? 0); symmetry; apply firstn_map.
Qed.

Lemma length_slice_to_le {A} (n : Z) (l : list A) :
  (List.length (slice_to n l) <= List.length l)%nat.
Proof.
  unfold slice_to. destruct (n <? 0); rewrite length_firstn; lia.
Qed.

Lemma map_fst_normalised (n : Z) (os : list slot) :
  map fst (normalised_slots n os) = slice_to n (map fst os).
Proof.
  unfold normalised_slots. destruct (Qlt_le_dec _ _).
  - rewrite map_map, <- map_fst_slice_to. apply map_ext. now intros [h p].
  - apply map_fst_slice_to.
Qed.

Lemma sum_from_ge (l : list slot) :
  (forall s, In s l -> (0 <= snd s)%Q) ->
  forall a, (a <= fold_left (fun acc '(_, prob) => acc + prob) l a)%Q.
Proof.
  induction l as [|[h p] l IH]; simpl; intros H a; [apply Qle_refl|].
  apply Qle_trans with (a + p)%Q.
  - rewrite <- (Qplus_0_r a) at 1. apply Qplus_le_r.
    apply (H (h, p)). now left.
  - apply IH. intros s Hs. apply H. now right.
Qed.

Lemma sum_from_in (l : list slot) :
  (forall s, In s l -> (0 <= snd s)%Q) ->
  forall a s, (0 <= a)%Q -> In s l ->
    (snd s <= fold_left (fun acc '(_, prob) => acc + prob) l a)%Q.
Proof.
  induction l as [|[h p] l IH]; simpl; intros H a s Ha Hs; [destruct Hs|].
  assert (Hp : (0 <= p)%Q) by (apply (H (h, p)); now left).
  destruct Hs as [<- | Hs].
  - simpl. apply Qle_trans with (a + p)%Q.
    + rewrite <- (Qplus_0_l p) at 1. now apply Qplus_le_l.
    + apply sum_from_ge. intros s Hs. apply H. now right.
  - apply IH; [intros s' Hs'; apply H; now right | | exact Hs].
    rewrite <- (Qplus_0_l 0). now apply Qplus_le_compat.
Qed.

Lemma sum_ge_each (l : list slot) :
  (forall s, In s l -> (0 <= snd s)%Q) ->
  forall s, In s l -> (snd s <= sum_probs l)%Q.
Proof.
  intros H s Hs. unfold sum_probs. apply sum_from_in; [exact H | | exact Hs].
  apply Qle_refl.
Qed.

Lemma wrapped_hours_NoDup (start n : Z) :
  n <= 24 -> NoDup (map (fun i => (start + i) mod 24) (arange n)).
Proof.
  intros Hn. unfold arange. rewrite map_map.
  apply NoDup_map_NoDup_ForallPairs; [| apply seq_NoDup].
  intros a b Ha Hb E. apply in_seq in Ha, Hb.
  pose proof (Z.div_mod (start + Z.of_nat a) 24 ltac:(lia)) as Da.
  pose proof (Z.div_mod (start + Z.of_nat b) 24 ltac:(lia)) as Db.
  rewrite E in Da. lia.
Qed.

Lemma rule_score_range (h : Z) : (0 <= rule_score h /\ rule_score h <= 1)%Q.
Proof.
  destruct (rule_score_cases h) as [He [Hm [Ha Hb]]].
  assert (K : (h < 7 \/ 20 < h) \/ 9 <= h <= 11 \/ 14 <= h <= 16 \/
              (7 <= h <= 20 /\ ~ 9 <= h <= 11 /\ ~ 14 <= h <= 16)) by lia.
  destruct K as [K | [K | [K | [K1 [K2 K3]]]]];
    [rewrite (He K) | rewrite (Hm K) | rewrite (Ha K)
     | rewrite (Hb K1 K2 K3)]; split; discriminate.
Qed.

(** X7: whatever path produced it, a generated slot list has hours of the
    day 0..23, no hour twice, scores in [0,1], and at most 18 entries, at
    most 12 when the hours given are above -1. *)
Theorem generated_slots_invariant self (d g : str) ah (c : str) slots :
  generate_dynamic_schedule self d g ah c = Ok slots ->
  (forall h p, In (h, p) slots -> 0 <= h <= 23 /\ (0 <= p /\ p <= 1)%Q) /\
  NoDup (map fst slots) /\
  (List.length slots <= 18)%nat /\
  ((-1 < ah)%Q -> (List.length slots <= 12)%nat).
Proof.
  intros Hgen.
  assert (Hn12 : hours_needed ah <= 12) by (unfold hours_needed; lia).
  destruct (generate_cases _ _ _ _ _ _ Hgen) as [[_ Hf] | [os [Hp ->]]].
  - pose proof (fallback_slots_ok _ _ _ Hf) as Hhn.
    rewrite (fallback_slots_eq _ _ Hhn) in Hf. injection Hf as <-.
    split; [| split; [| split]].
    + intros h p Hin. apply in_map_iff in Hin as [h' [E Hin]].
      injection E as -> <-. apply in_map_iff in Hin as [i [<- _]].
      split; [| apply rule_score_range].
      pose proof (Z.mod_pos_bound (preferred_start (lower c) + i) 24). lia.
    + rewrite map_map. simpl. rewrite map_id.
      apply wrapped_hours_NoDup. lia.
    + rewrite !length_map, length_arange. lia.
    + intros _. rewrite !length_map, length_arange. lia.
  - destruct Hp as [features [_ Hp]].
    pose proof (predict_slots_range self features os Hp) as Hr.
    pose proof (predict_slots_hours self features os Hp) as Hperm.
    assert (Hlen : List.length os = 18%nat).
    { apply Permutation_length in Hperm. now rewrite length_map in Hperm. }
    split; [| split; [| split]].
    + intros h p Hin. unfold normalised_slots in Hin.
      set (top := slice_to (hours_needed ah) os) in *.
      assert (Htop : forall s, In s top -> (0 <= snd s)%Q /\ 5 <= fst s <= 22).
      { intros [h' p'] Hs. apply in_slice_to in Hs.
        destruct (Hr h' p' Hs) as [[H0 _] Hh]. now split. }
      destruct (Qlt_le_dec 0 (sum_probs top)) as [Hpos|_].
      * apply in_map_iff in Hin as [[h' p'] [E Hin]]. injection E as <- <-.
        destruct (Htop _ Hin) as [H0 Hh]. simpl in H0, Hh.
        split; [lia|]. split.
        -- apply Qle_shift_div_l; [exact Hpos | now rewrite Qmult_0_l].
        -- apply Qle_shift_div_r; [exact Hpos|]. rewrite Qmult_1_l.
           apply (sum_ge_each top (fun s Hs => proj1 (Htop s Hs)) (h', p') Hin).
      * apply in_slice_to in Hin. destruct (Hr h p Hin) as [Hq Hh].
        split; [lia | exact Hq].
    + rewrite map_fst_normalised. unfold slice_to.
      assert (Hnd : NoDup (map fst os)).
      { apply (Permutation_NoDup (Permutation_sym Hperm)).
        unfold scored_hours.
        repeat (constructor; [simpl; lia|]). constructor. }
      destruct (_ <? 0); now apply NoDup_firstn.
    + rewrite length_normalised_slots, <- Hlen. apply length_slice_to_le.
    + intros Hah. rewrite length_normalised_slots.
      assert (0 <= hours_needed ah).
      { unfold hours_needed, int_of_float. destruct ah as [n dn].
        unfold Qlt in Hah. simpl in *.
        assert (0 <= Z.quot n (Z.pos dn)); [| lia].
        destruct (Z_le_gt_dec 0 n) as [Hn0|Hn0].
        - apply Z.quot_pos; lia.
        - rewrite <- (Z.opp_involutive n), Z.quot_opp_l by lia.
          rewrite Z.quot_small by lia. lia. }
      pose proof (length_slice_to (hours_needed ah) os). lia.
Qed.

Lemma generated_slots_invariant_witness :
  NoDup [16; 17; 18; 19; 20; 21; 22; 23; 0; 1; 2; 3].
Proof.
  destruct (generated_slots_invariant rule_based_scheduler "1 week" "design"
              12 "evening"
              [(16, (8 # 10)%Q); (17, (7 # 10)%Q); (18, (7 # 10)%Q);
               (19, (7 # 10)%Q); (20, (7 # 10)%Q); (21, (6 # 10)%Q);
               (22, (6 # 10)%Q); (23, (6 # 10)%Q); (0, (6 # 10)%Q);
               (1, (6 # 10)%Q); (2, (6 # 10)%Q); (3, (6 # 10)%Q)] eq_refl)
    as (_ & H & _).
  exact H.
Defined.

(* ------------------------------------------------------------------ *)
(** ** Priorities over the fallback slots *)

Lemma scan_slots_scored (f : Z -> Q) (hs : list Z) (h : Z) :
  In h hs ->
  scan_slots h (map (fun h => (h, f h)) hs) = Some (score_priority (f h)).
Proof.
  induction hs as [|a hs IH]; simpl; [intros []|].
  intros H. destruct (Z.eqb_spec a h) as [->|N]; [reflexivity|].
  destruct H as [H|H]; [contradiction | now apply IH].
Qed.

(** X8: with the slots of the rule-based path, the priority of an hour that
    has a slot is never LOW: it is MEDIUM for the edge hours (before 7 or
    after 20) and HIGH for every other hour; an hour without a slot gets
    the static priority. *)
Theorem fallback_priorities self (d g : str) ah (c : str) slots :
  fallback_path self g ah c ->
  generate_dynamic_schedule self d g ah c = Ok slots ->
  forall h,
    (In h (map fst slots) ->
     _get_priority h slots = if at_edge h then MEDIUM else HIGH) /\
    (~ In h (map fst slots) -> _get_priority h slots = static_priority h).
Proof.
  intros Hpath Hgen h.
  rewrite (generate_fallback _ _ _ _ _ Hpath) in Hgen.
  pose proof (fallback_slots_ok _ _ _ Hgen) as Hhn.
  rewrite (fallback_slots_eq _ _ Hhn) in Hgen. injection Hgen as <-.
  rewrite get_priority_scan. split.
  - rewrite map_map. simpl. rewrite map_id. intros Hin.
    rewrite (scan_slots_scored rule_score _ h Hin).
    destruct (rule_score_cases h) as [He [Hm [Ha Hb]]].
    unfold at_edge.
    destruct (Z.ltb_spec h 7); [rewrite He by lia; reflexivity|].
    destruct (Z.gtb_spec h 20); [rewrite He by lia; reflexivity|].
    assert (K : 9 <= h <= 11 \/ 14 <= h <= 16 \/
                (7 <= h <= 20 /\ ~ 9 <= h <= 11 /\ ~ 14 <= h <= 16)) by lia.
    destruct K as [K | [K | [K1 [K2 K3]]]];
      [rewrite (Hm K) | rewrite (Ha K) | rewrite (Hb K1 K2 K3)]; reflexivity.
  - intros Hn. rewrite scan_slots_none; [reflexivity|].
    intros s Hs E. apply Hn. rewrite <- E. now apply in_map.
Qed.

Lemma fallback_priorities_witness :
  _get_priority 21 [(16, (8 # 10)%Q); (17, (7 # 10)%Q); (18, (7 # 10)%Q);
                    (19, (7 # 10)%Q); (20, (7 # 10)%Q); (21, (6 # 10)%Q)]
  = MEDIUM.
Proof.
  assert (P : fallback_path rule_based_scheduler "design" 6 "evening")
    by (apply rule_based_fallback; discriminate).
  destruct (fallback_priorities rule_based_scheduler "1 week" "design" 6
              "evening"
              [(16, (8 # 10)%Q); (17, (7 # 10)%Q); (18, (7 # 10)%Q);
               (19, (7 # 10)%Q); (20, (7 # 10)%Q); (21, (6 # 10)%Q)]
              P eq_refl 21) as [H _].
  apply H. simpl. tauto.
Defined.

(* ------------------------------------------------------------------ *)
(** ** Times *)

Lemma upper_char_idem (c : ascii) : upper_char (upper_char c) = upper_char c.
Proof. destruct c as [[] [] [] [] [] [] [] []]; reflexivity. Qed.

Lemma normalise_idem (x : str) :
  normalise_time (normalise_time x) = normalise_time x.
Proof.
  unfold normalise_time at 1. rewrite normalise_no_space.
  unfold normalise_time, upper. rewrite map_map.
  apply map_ext. intros c. apply upper_char_idem.
Qed.

Lemma format_time_by_normal_form (x y : str) :
  normalise_time x = normalise_time y -> _format_time x = _format_time y.
Proof. intros H. unfold _format_time. now rewrite H. Qed.

Lemma plain_char_fixed (c : ascii) :
  plain_char c = true -> c <> " "%char /\ upper_char c = c.
Proof.
  destruct c as [[] [] [] [] [] [] [] []]; intros H;
    try discriminate H; split; (discriminate || reflexivity).
Qed.

Lemma slot_time_chars (h : Z) (c : ascii) :
  In c (format_02d h ++ of_string ":00") ->
  (c <> " "%char /\ upper_char c = c) /\ c <> "A"%char /\ c <> "P"%char.
Proof.
  intros H. apply in_app_or in H as [H|H].
  - pose proof (format_02d_plain h) as F. rewrite forallb_forall in F.
    specialize (F c H). split; [now apply plain_char_fixed|].
    split; intros ->; discriminate F.
  - simpl in H.
    repeat (destruct H as [<- | H];
            [split; [split; [discriminate | reflexivity]
                    | split; discriminate]|]).
    destruct H.
Qed.

Lemma slot_time_fixed (h : Z) :
  _format_time (format_02d h ++ of_string ":00") =
  format_02d h ++ of_string ":00".
Proof.
  assert (N : normalise_time (format_02d h ++ of_string ":00") =
              format_02d h ++ of_string ":00").
  { apply normalise_fixed. intros c Hc. now apply slot_time_chars in Hc. }
  unfold _format_time. rewrite N.
  assert (M : has_marker (format_02d h ++ of_string ":00") = false).
  { unfold has_marker. apply orb_false_iff. split.
    - destruct (contains "AM" _) eqn:E; [| reflexivity].
      apply (contains_In "A" (of_string "M")) in E.
      apply slot_time_chars in E. tauto.
    - destruct (contains "PM" _) eqn:E; [| reflexivity].
      apply (contains_In "P" (of_string "M")) in E.
      apply slot_time_chars in E. tauto. }
  now rewrite M.
Qed.

Lemma normalise_has_no_space (x : str) : ~ In " "%char (normalise_time x).
Proof.
  intros H. rewrite <- normalise_no_space in H.
  unfold remove_spaces in H. apply filter_In in H as [_ H].
  discriminate H.
Qed.

(** X9: time normalisation is idempotent, and its result never holds a
    space: a time that went through [_format_time] comes back unchanged
    from a second pass. *)
Theorem format_time_idempotent (t : str) :
  _format_time (_format_time t) = _format_time t /\
  ~ In " "%char (_format_time t).
Proof.
  destruct (format_time_cases t) as [E | [_ [h E]]]; rewrite E.
  - split; [| apply normalise_has_no_space].
    rewrite <- E at 2. apply format_time_by_normal_form, normalise_idem.
  - split; [apply slot_time_fixed|].
    intros H. apply slot_time_chars in H. tauto.
Qed.

Lemma hour_of_day_fits (hour : Z) :
  0 <= hour <= 23 -> fits_str_digits hour.
Proof.
  intros H.
  assert (F : forallb
                (fun h => (List.length (decimal (Z.to_N (Z.abs h))) <=? 2)%nat)
                (arange 24) = true) by reflexivity.
  rewrite forallb_forall in F.
  assert (Hin : In hour (arange 24)).
  { unfold arange. apply in_map_iff. exists (Z.to_nat hour).
    split; [lia | apply in_seq; lia]. }
  apply F in Hin. apply Nat.leb_le in Hin.
  unfold fits_str_digits, int_max_str_digits. lia.
Qed.

(** X10: the slot time of an hour of the day, and of any hour from 0 on
    whose decimal text stays within the limit of 4300 digits, is the hour
    zero-padded to two digits and ":00", and reads back as that hour: the
    text before its colon is what [int] turns into the hour again, and
    [_format_time] leaves the slot time as it is.  Beyond the limit the
    formatting raises. *)
Theorem format_slot_time_round_trip (hour : Z) :
  0 <= hour ->
  (hour <= 23 \/ fits_str_digits hour ->
   _format_slot_time hour = Ok (format_02d hour ++ of_string ":00") /\
   py_int (before ":" (format_02d hour ++ of_string ":00")) = Ok hour /\
   _format_time (format_02d hour ++ of_string ":00") =
   format_02d hour ++ of_string ":00") /\
  (~ fits_str_digits hour -> exists e, _format_slot_time hour = Raise e).
Proof.
  intros H. split.
  - intros Hb.
    assert (Hf : fits_str_digits hour).
    { destruct Hb as [Hb | Hb]; [apply hour_of_day_fits; lia | exact Hb]. }
    split; [| split; [| apply slot_time_fixed]].
    + unfold _format_slot_time. now rewrite (py_format_fits hour Hf).
    + rewrite before_app by apply plain_no_colon, format_02d_plain.
      unfold before. simpl. rewrite app_nil_r.
      unfold fits_str_digits in Hf. rewrite Z.abs_eq in Hf by exact H.
      unfold format_02d. destruct (Z.ltb_spec hour 0); [lia|].
      destruct (decimal_digits (Z.to_N hour)) as [Hd Hn].
      pose proof (digits_value_decimal (Z.to_N hour)) as V.
      rewrite Z2N.id in V by exact H.
      destruct (Nat.ltb_spec (List.length (decimal (Z.to_N hour))) 2).
      * rewrite py_int_digits;
          [| simpl; now rewrite Hd | discriminate
           | unfold int_max_str_digits; simpl; lia].
        f_equal. unfold digits_value in *. simpl. exact V.
      * rewrite py_int_digits by assumption. now rewrite V.
  - intros Hf. unfold _format_slot_time.
    destruct (py_format_over hour Hf) as [e ->]. now exists e.
Qed.

Lemma format_slot_time_round_trip_witness :
  _format_slot_time 7 = Ok (of_string "07:00") /\
  py_int (before ":" "07:00") = Ok 7 /\
  _format_time "07:00" = of_string "07:00".
Proof.
  destruct (format_slot_time_round_trip 7) as [H _]; [lia|].
  apply H. left. lia.
Defined.

(* ------------------------------------------------------------------ *)
(** ** Annotations *)

Lemma in_re_sub_from (c : ascii) (x : str) :
  forall skip, In c (re_sub_from skip x) -> In c x.
Proof.
  induction x as [|a x IH]; simpl; intros skip H; [exact H|].
  destruct skip as [|k]; [| right; now apply (IH k)].
  destruct (match_annotation (a :: x)) as [n|].
  - right. now apply (IH (n - 1)%nat).
  - destruct H as [H|H]; [now left | right; now apply (IH O)].
Qed.

Lemma to_close_none (x : str) :
  to_close x = None -> forall c, In c x -> is_close c = false.
Proof.
  induction x as [|a x IH]; simpl; intros H c Hc; [destruct Hc|].
  destruct (is_close a) eqn:E; [discriminate|].
  destruct (to_close x); [discriminate|].
  destruct Hc as [<- | Hc]; [exact E | now apply IH].
Qed.

Lemma open_not_space (c : ascii) : is_open c = true -> is_space c = false.
Proof.
  unfold is_open. intros H. apply orb_true_iff in H as [H|H];
    apply eqb_char_iff in H; now subst.
Qed.

Lemma unmatched_open (c : ascii) (x : str) :
  is_open c = true -> match_annotation (c :: x) = None ->
  forall a, In a x -> is_close a = false.
Proof.
  intros Ho. unfold match_annotation. simpl space_run.
  rewrite (open_not_space c Ho). simpl. rewrite Ho.
  destruct (to_close x) eqn:E; [discriminate|].
  intros _. now apply to_close_none.
Qed.

Lemma re_sub_from_open (x : str) :
  forall skip a o b,
    re_sub_from skip x = a ++ o :: b -> is_open o = true ->
    forall c, In c b -> is_close c = false.
Proof.
  induction x as [|h x IH]; simpl; intros skip a o b E Ho c Hc.
  - destruct a; discriminate E.
  - destruct skip as [|k]; [| now apply (IH k a o b)].
    destruct (match_annotation (h :: x)) as [n|] eqn:M.
    + now apply (IH (n - 1)%nat a o b).
    + destruct a as [|a0 a]; simpl in E; injection E as E1 E2.
      * subst h. apply (unmatched_open o x Ho M).
        apply (in_re_sub_from c x O). now rewrite E2.
      * now apply (IH O a o b).
Qed.

Lemma lstrip_suffix (x : str) : exists l, x = l ++ lstrip x.
Proof.
  induction x as [|c x [l IH]]; simpl; [now exists []|].
  destruct (is_space c); [| now exists []].
  exists (c :: l). simpl. now rewrite <- IH.
Qed.

Lemma strip_infix (x : str) : exists l r, x = l ++ strip x ++ r.
Proof.
  unfold strip, rstrip. destruct (lstrip_suffix x) as [l El].
  destruct (lstrip_suffix (rev (lstrip x))) as [r Er].
  exists l, (rev r). rewrite <- rev_app_distr, <- Er, rev_involutive.
  exact El.
Qed.

(** X11: the task text of a time block holds only characters of the text
    after the colon, and no bracketed annotation is left in it: after an
    opening bracket that stays, no closing bracket follows. *)
Theorem annotations_stripped (x : str) :
  (forall c, In c (strip (re_sub_annotations x)) -> In c x) /\
  (forall a o b,
      strip (re_sub_annotations x) = a ++ o :: b -> is_open o = true ->
      forall c, In c b -> is_close c = false).
Proof.
  destruct (strip_infix (re_sub_annotations x)) as [l [r E]].
  split.
  - intros c Hc. apply (in_re_sub_from c x O).
    fold (re_sub_annotations x). rewrite E.
    apply in_or_app. right. apply in_or_app. now left.
  - intros a o b Es Ho c Hc. rewrite Es in E.
    apply (re_sub_from_open x O (l ++ a) o (b ++ r)); [| exact Ho |].
    + fold (re_sub_annotations x). rewrite E.
      now rewrite <- !app_assoc.
    + apply in_or_app. now left.
Qed.

Lemma annotations_stripped_witness :
  strip (re_sub_annotations " Plan (30 min) the [draft] week (open") =
  of_string "Plantheweek (open" /\
  is_close "n" = false.
Proof.
  split; [reflexivity|].
  destruct (annotations_stripped " Plan (30 min) the [draft] week (open")
    as [_ H].
  apply (H (of_string "Plantheweek ") "("%char (of_string "open"));
    [reflexivity | reflexivity | simpl; tauto].
Defined.

(* ------------------------------------------------------------------ *)
(** ** Lines that start with a 24-hour time *)

Lemma split1_app (sep : ascii) (a b : str) :
  ~ In sep a -> split1 sep (a ++ sep :: b) = (a, Some b).
Proof.
  induction a as [|c a IH]; simpl; intros H.
  - now rewrite eqb_char_refl.
  - destruct (eqb_char c sep) eqn:E; [apply eqb_char_iff in E; tauto|].
    rewrite IH; [reflexivity | tauto].
Qed.

Lemma digits_plain (x : str) :
  forallb is_digit x = true -> forallb plain_char x = true.
Proof.
  intros H. rewrite forallb_forall in *. intros c Hc.
  unfold plain_char. now rewrite (H c Hc).
Qed.

Lemma format_time_digits (x : str) :
  forallb is_digit x = true -> _format_time x = x.
Proof.
  intros H. apply digits_plain in H.
  assert (N : normalise_time x = x).
  { apply normalise_fixed. intros c Hc. apply plain_char_fixed.
    rewrite forallb_forall in H. now apply H. }
  unfold _format_time. rewrite N. now rewrite (plain_no_marker x H).
Qed.

(** X12: a line that starts with digits and a colon, as a 24-hour time
    does, is cut at that colon: the time rendered is the digits alone, what
    follows the colon (the minutes too) goes to the task, and the priority
    is that of the hour the digits denote, or of hour 9 when there are more
    digits than [int] reads. *)
Theorem digits_time_block slots (hh rest : str) :
  forallb is_digit hh = true -> hh <> [] ->
  process_time_block slots (hh ++ ":"%char :: rest) =
  hh ++ of_string " - " ++ strip (re_sub_annotations rest) ++ of_string " (" ++
  capitalize
    (priority_str
       (_get_priority
          (if (List.length hh <=? int_max_str_digits)%nat
           then digits_value hh else 9) slots)) ++
  of_string ")".
Proof.
  intros Hd Hne.
  assert (Hc : ~ In ":"%char hh) by apply plain_no_colon, digits_plain, Hd.
  unfold process_time_block, process_time_block_body.
  rewrite (split1_app ":" hh rest Hc), (format_time_digits hh Hd).
  assert (B : before ":" hh = hh).
  { rewrite <- (app_nil_r hh) at 1. rewrite (before_app ":" hh [] Hc).
    apply app_nil_r. }
  rewrite B, (py_int_digits_cases hh Hd Hne).
  destruct (List.length hh <=? int_max_str_digits)%nat; reflexivity.
Qed.

Lemma digits_time_block_witness :
  process_time_block [] "14:00 - Review (30 min)" =
  of_string "14 - 00 - Review (High)".
Proof.
  apply (digits_time_block [] "14" "00 - Review (30 min)");
    [reflexivity | discriminate].
Defined.

(* ------------------------------------------------------------------ *)
(** ** What [create_schedule] returns *)

Lemma header_start (hours_repr duration goals considerations rest : str) :
  startswith "Schedule Overview"
    (header hours_repr duration goals considerations ++ rest) = true.
Proof. reflexivity. Qed.

(** X13: [create_schedule] returns an error text or a schedule, never a
    part of one: "Error: Please fill in all fields" for an empty text; the
    error of the slot generation as it is; any failure of the prompt
    builder or of the drafting service as "Failed to generate schedule";
    and the header with the formatted draft only when all of them
    succeeded. *)
Theorem create_schedule_outcomes float_repr self (d g : str) ah (c : str) :
  let out := create_schedule float_repr self d g ah c in
  (startswith "Error: " out = true \/
   startswith "Schedule Overview" out = true) /\
  (d = [] \/ g = [] \/ c = [] ->
   out = of_string "Error: Please fill in all fields") /\
  (d <> [] -> g <> [] -> c <> [] ->
   (forall e,
       generate_dynamic_schedule self d g ah c = Raise e ->
       out = of_string "Error: " ++ exn_str e) /\
   (forall slots e,
       generate_dynamic_schedule self d g ah c = Ok slots ->
       (prompt_method self (lower d) g slots c = Raise e \/
        exists prompt,
          prompt_method self (lower d) g slots c = Ok prompt /\
          generate_content self prompt = Raise e) ->
       out = of_string "Error: Failed to generate schedule: " ++ exn_str e) /\
   (forall slots prompt text,
       generate_dynamic_schedule self d g ah c = Ok slots ->
       prompt_method self (lower d) g slots c = Ok prompt ->
       generate_content self prompt = Ok text ->
       out = _format_output slots (float_repr ah) text d g c)).
Proof.
  cbv zeta. unfold create_schedule, generate_schedule. cbv zeta.
  destruct d as [|d0 d']; [| destruct g as [|g0 g']; [| destruct c as [|c0 c']]].
  - split; [now left|]. split; [reflexivity | congruence].
  - split; [now left|]. split; [reflexivity | congruence].
  - split; [now left|]. split; [reflexivity | congruence].
  - set (d := d0 :: d'). set (g := g0 :: g'). set (c := c0 :: c').
    destruct (generate_dynamic_schedule self d g ah c) as [slots|e0] eqn:G;
      cbv beta iota delta [bind try_except].
    + destruct (prompt_method self (lower d) g slots c) as [prompt|e1] eqn:P;
        cbv beta iota.
      * destruct (generate_content self prompt) as [text|e2] eqn:T;
          cbv beta iota.
        -- split; [right; apply header_start|].
           split; [intros [H | [H | H]]; discriminate H|]. intros _ _ _.
           split; [discriminate|]. split.
           ++ intros s e E [K | [pr [K1 K2]]]; injection E as <-;
                congruence.
           ++ intros s pr tx E K1 K2. injection E as <-.
              rewrite P in K1. injection K1 as <-.
              rewrite T in K2. injection K2 as <-. reflexivity.
        -- split; [now left|].
           split; [intros [H | [H | H]]; discriminate H|]. intros _ _ _.
           split; [discriminate|]. split.
           ++ intros s e E [K | [pr [K1 K2]]]; injection E as <-;
                [congruence|].
              rewrite P in K1. injection K1 as <-.
              rewrite T in K2. injection K2 as <-. reflexivity.
           ++ intros s pr tx E K1 K2. injection E as <-. congruence.
      * split; [now left|].
        split; [intros [H | [H | H]]; discriminate H|]. intros _ _ _.
        split; [discriminate|]. split.
        -- intros s e E [K | [pr [K1 K2]]]; injection E as <-;
             [| congruence].
           rewrite P in K. injection K as <-. reflexivity.
        -- intros s pr tx E K1 K2. injection E as <-. congruence.
    + split; [now left|].
      split; [intros [H | [H | H]]; discriminate H|]. intros _ _ _.
      split; [intros e E; injection E as <-; reflexivity|].
      split; intros; discriminate.
Qed.

Lemma create_schedule_outcomes_witness :
  create_schedule (fun _ => of_string "8.0") offline_scheduler "1 month"
                  "design" 8 "mornings" =
  of_string "Error: Failed to generate schedule: service unavailable".
Proof.
  destruct (create_schedule_outcomes (fun _ => of_string "8.0")
              offline_scheduler "1 month" "design" 8 "mornings")
    as (_ & _ & H).
  destruct H as (_ & H & _); try discriminate.
  apply (H [(8, (7 # 10)%Q); (9, (9 # 10)%Q); (10, (9 # 10)%Q);
            (11, (9 # 10)%Q); (12, (7 # 10)%Q); (13, (7 # 10)%Q);
            (14, (8 # 10)%Q); (15, (8 # 10)%Q)]
           (ValueError "service unavailable") eq_refl).
  right. exists (of_string "design"). split; reflexivity.
Defined.

(* ------------------------------------------------------------------ *)
(** ** The formatting loop *)

Lemma format_line_emitted slots (st : fmt_state) (raw : str) :
  fst (format_line slots st raw) = fst st ++ emitted slots raw.
Proof.
  unfold emitted, format_line. destruct st as [ls cs].
  destruct (classify (strip raw)); simpl; try (now rewrite app_nil_r);
    try reflexivity.
  destruct (eqb _ _); simpl; [now rewrite app_nil_r | reflexivity].
Qed.

Lemma fold_format_line slots (raws : list str) :
  forall st,
    fst (fold_left (format_line slots) raws st) =
    fst st ++ List.concat (map (emitted slots) raws).
Proof.
  induction raws as [|raw raws IH]; simpl; intros st.
  - now rewrite app_nil_r.
  - now rewrite IH, format_line_emitted, app_assoc.
Qed.

(** X14: formatting is local to the lines: what a raw line adds to the
    output, at most two lines, depends on that line and the slots alone,
    not on the lines before it nor on the section last seen, and the
    formatted lines are these additions in the order of the draft. *)
Theorem formatting_line_local slots :
  (forall (st : fmt_state) raw,
      fst (format_line slots st raw) = fst st ++ emitted slots raw) /\
  (forall raw, (List.length (emitted slots raw) <= 2)%nat) /\
  (forall schedule,
      format_lines slots schedule =
      List.concat (map (emitted slots) (split nl (strip schedule)))).
Proof.
  split; [apply format_line_emitted|]. split.
  - intros raw. unfold emitted, format_line.
    destruct (classify (strip raw)); simpl; try lia.
    destruct (eqb _ _); simpl; lia.
  - intros schedule. unfold format_lines. now rewrite fold_format_line.
Qed.

Lemma lstrip_spaces (x : str) : forallb is_space x = true -> lstrip x = [].
Proof.
  induction x as [|c x IH]; simpl; [reflexivity|].
  intros H. apply andb_true_iff in H as [Hc Hx]. rewrite Hc. now apply IH.
Qed.

(** X15: a draft of nothing but whitespace, the empty draft too, adds no
    line: the output is the header alone. *)
Theorem blank_draft_gives_header slots (hours_repr schedule d g c : str) :
  forallb is_space schedule = true ->
  format_lines slots schedule = [] /\
  _format_output slots hours_repr schedule d g c = header hours_repr d g c.
Proof.
  intros H.
  assert (E : strip schedule = []).
  { unfold strip. now rewrite (lstrip_spaces schedule H). }
  assert (F : format_lines slots schedule = []).
  { unfold format_lines. now rewrite E. }
  split; [exact F|]. unfold _format_output. rewrite F. apply app_nil_r.
Qed.

Lemma blank_draft_gives_header_witness :
  format_lines [] (of_string "   " ++ newline ++ of_string "  ") = [].
Proof.
  apply (blank_draft_gives_header [] "8.0"
           (of_string "   " ++ newline ++ of_string "  ") "d" "g" "c").
  reflexivity.
Defined.

(* ------------------------------------------------------------------ *)
(** ** Week headers *)

Lemma in_remove_from (needle : str) (c : ascii) (x : str) :
  forall skip, In c (remove_from skip needle x) -> In c x.
Proof.
  induction x as [|a x IH]; simpl; intros skip H; [exact H|].
  destruct skip as [|k]; [| right; now apply (IH k)].
  destruct (startswith needle (a :: x)).
  - right. now apply (IH _ H).
  - destruct H as [H|H]; [now left | right; now apply (IH O)].
Qed.

Lemma remove_stars_head (x : str) :
  startswith "*" x = false ->
  startswith "*" (remove_from 0 "**" x) = false.
Proof.
  destruct x as [|c x]; [reflexivity|].
  cbn [startswith of_string list_ascii_of_string remove_from].
  destruct (eqb_char "*" c) eqn:E; cbn [andb]; [discriminate|].
  intros _. cbn [startswith]. now rewrite E.
Qed.

Lemma remove_stars_none (x : str) :
  contains "**" (remove_from 0 "**" x) = false /\
  contains "**" (remove_from 1 "**" x) = false.
Proof.
  induction x as [|c x [IH0 IH1]]; [split; reflexivity|].
  split; [| exact IH0].
  cbn [remove_from]. destruct (startswith "**" (c :: x)) eqn:S.
  - exact IH1.
  - cbn [contains]. rewrite IH0, orb_false_r.
    cbn [startswith of_string list_ascii_of_string] in *.
    destruct (eqb_char "*" c); [| reflexivity]. cbn [andb] in *.
    change (startswith "*" x = false) in S.
    apply remove_stars_head in S. exact S.
Qed.

Lemma contains_infix (needle l x r : str) :
  contains needle x = true -> contains needle (l ++ x ++ r) = true.
Proof.
  rewrite !contains_iff. intros [pre [post ->]].
  exists (l ++ pre), (post ++ r). now rewrite <- !app_assoc.
Qed.

(** X16: a week-range header is emitted after a blank line with every
    "**" taken out: the header holds no "**" and only characters of the
    line. *)
Theorem week_header_plain slots (st : fmt_state) (raw : str) :
  let line := strip raw in
  let w := strip (remove_all "**" line) in
  classify line = WeekHeader ->
  format_line slots st raw = (fst st ++ [of_string ""; w], Some WEEK) /\
  contains "**" w = false /\
  (forall c, In c w -> In c line).
Proof.
  intros line w Hc. unfold w. split; [| split].
  - unfold format_line. destruct st as [ls cs]. fold line. now rewrite Hc.
  - destruct (strip_infix (remove_all "**" line)) as [l [r E]].
    destruct (contains "**" (strip _)) eqn:K; [| reflexivity].
    apply (contains_infix _ l _ r) in K. rewrite <- E in K.
    unfold remove_all in K. now rewrite (proj1 (remove_stars_none line)) in K.
  - intros c Hin. apply (in_remove_from "**" c line O).
    fold (remove_all "**" line).
    destruct (strip_infix (remove_all "**" line)) as [l [r E]].
    rewrite E. apply in_or_app. right. apply in_or_app. now left.
Qed.

Lemma week_header_plain_witness :
  format_line [] ([], None) " **Week 1-2: Foundations** " =
  ([of_string ""; of_string "Week 1-2: Foundations"], Some WEEK).
Proof.
  destruct (week_header_plain [] ([], None) " **Week 1-2: Foundations** "
              eq_refl) as (E & _ & _).
  exact E.
Defined.
